(** * StockApp persistence layer: schema and data-access functions

    A shallow embedding of [stock_trader_py/core/enums.py],
    [stock_trader_py/core/models.py] and [stock_trader_py/data/crud.py].

    The data-access functions are thin wrappers around an ORM session, so
    the embedding fixes a model of that session:

    - a [Session] is the persistent store (five tables) together with the
      list of objects staged by [add]/[add_all] and not yet flushed; the
      session factory of [data/database.py] sets [autoflush=False], so a
      query reads the store only;
    - [commit] flushes the staged objects in the order they were added,
      inside one transaction: either every insert succeeds, or the first
      failing insert raises and the store is left as it was (the five
      tables constrain one another in no way the engine checks, so the
      order of the inserts across tables does not change the store);
    - an insert applies the column defaults of [models.py], checks the
      NOT NULL and UNIQUE constraints of [models.py], and assigns the
      integer primary key the way the default engine of [database.py]
      (SQLite) does: one more than the largest key in use, or 1; that
      engine enforces neither the foreign keys nor the string lengths;
      binding a Python int outside 64 bits to an integer column raises
      [OverflowError], a NaN is bound as NULL and a negative zero is
      stored as zero;
    - a table is scanned in primary-key order; [order_by] is a stable sort
      over that scan; OFFSET and LIMIT follow SQLite (a negative offset
      skips nothing, a negative limit does not bound the result);
    - [datetime] values are naive timestamps, embedded as integers;
      [datetime.datetime.utcnow()] is an extra argument [now];
    - [str] is [string], the UTF-8 text; [upper] is [str.upper] on ASCII
      text: it maps the ASCII letters and leaves every other byte, so it
      agrees with Python on a string with no cased character outside
      ASCII ([is_ascii] strings among them). *)

From Stdlib Require Import List ZArith NArith Bool Ascii String Lia.
From Stdlib Require Import Permutation Sorted.
From Stdlib Require Import Floats.PrimFloat.
Import ListNotations.

Open Scope string_scope.
Open Scope Z_scope.

(** ** Python values *)

Definition datetime := Z.

Definition char_upper (c : ascii) : ascii :=
  let n := N_of_ascii c in
  if ((97 <=? n) && (n <=? 122))%N then ascii_of_N (n - 32) else c.

Definition char_lower (c : ascii) : ascii :=
  let n := N_of_ascii c in
  if ((65 <=? n) && (n <=? 90))%N then ascii_of_N (n + 32) else c.

(** [str.upper()] *)
Fixpoint upper (s : string) : string :=
  match s with
  | EmptyString => EmptyString
  | String c s' => String (char_upper c) (upper s')
  end.

(** [str.lower()], used only to speak about the casings of a symbol *)
Fixpoint lower (s : string) : string :=
  match s with
  | EmptyString => EmptyString
  | String c s' => String (char_lower c) (lower s')
  end.

(** The string holds ASCII characters only. *)
Fixpoint is_ascii (s : string) : bool :=
  match s with
  | EmptyString => true
  | String c s' => (N_of_ascii c <? 128)%N && is_ascii s'
  end.

(** Truth value of an [Optional[str]]: [None] and the empty string are
    false. *)
Definition truthy (o : option string) : bool :=
  match o with
  | Some s => negb (String.eqb s "")
  | None => false
  end.

(** [x or default] for an [Optional[datetime]]: every [datetime] is true. *)
Definition or_else (o : option datetime) (default : datetime) : datetime :=
  match o with
  | Some t => t
  | None => default
  end.

(** Two strings are casings of one another when they have the same length
    and agree character by character up to the case of ASCII letters. *)
Definition char_same_letter (c c' : ascii) : bool :=
  (c' =? c)%char || (c' =? char_upper c)%char || (c' =? char_lower c)%char.

Fixpoint casing_of (s s' : string) : bool :=
  match s, s' with
  | EmptyString, EmptyString => true
  | String c r, String c' r' => char_same_letter c c' && casing_of r r'
  | _, _ => false
  end.

(** ** core/enums.py *)

Inductive Exchange := NSE | BSE.
Inductive TipType := INTRADAY | OPTIONS | SWING.
Inductive ActionType := BUY | SELL | HOLD.

Definition Exchange_value (e : Exchange) : string :=
  match e with NSE => "NSE" | BSE => "BSE" end.

Definition TipType_value (t : TipType) : string :=
  match t with INTRADAY => "Intraday" | OPTIONS => "Options" | SWING => "Swing" end.

Definition ActionType_value (a : ActionType) : string :=
  match a with BUY => "Buy" | SELL => "Sell" | HOLD => "Hold" end.

(** ** core/models.py

    An ORM object: every attribute may be [None] until the flush checks
    the column constraints. *)

Module Stock.
Record t := mk {
  id : option Z;
  symbol : option string;
  name : option string;
  exchange : option Exchange
}.
End Stock.

Module HistoricalPrice.
Record t := mk {
  id : option Z;
  stock_id : option Z;
  date : option datetime;
  open : option float;
  high : option float;
  low : option float;
  close : option float;
  volume : option Z
}.
End HistoricalPrice.

Module LivePrice.
Record t := mk {
  id : option Z;
  stock_id : option Z;
  timestamp : option datetime;
  price : option float;
  volume : option Z
}.
End LivePrice.

Module SentimentData.
Record t := mk {
  id : option Z;
  source : option string;
  timestamp : option datetime;
  text : option string;
  sentiment_score : option float;
  stock_symbol : option string
}.
End SentimentData.

Module TradingTip.
Record t := mk {
  id : option Z;
  timestamp : option datetime;
  stock_symbol : option string;
  tip_type : option TipType;
  action : option ActionType;
  reason : option string;
  confidence_score : option float
}.
End TradingTip.

(** A Python int binds to an integer column only within 64 bits. *)
Definition fits_int64 (o : option Z) : bool :=
  match o with
  | Some v => (- 2 ^ 63 <=? v) && (v <? 2 ^ 63)
  | None => true
  end.

Definition is_nan (f : float) : bool := negb (PrimFloat.eqb f f).

(** A float attribute as the engine stores it: a NaN is bound as NULL,
    and the sign of a zero is lost. *)
Definition store_float (o : option float) : option float :=
  match o with
  | Some f =>
      if is_nan f then None
      else if PrimFloat.eqb f 0%float then Some 0%float
      else Some f
  | None => None
  end.

Definition is_set {A : Type} (o : option A) : bool :=
  match o with Some _ => true | None => false end.

(** SQL comparison of a column with a bound value: NULL matches nothing. *)
Definition col_eq {A : Type} (eqb : A -> A -> bool) (c : option A) (v : A) : bool :=
  match c with Some x => eqb x v | None => false end.

Definition col_ge (c : option datetime) (v : datetime) : bool :=
  match c with Some x => v <=? x | None => false end.

Definition col_le (c : option datetime) (v : datetime) : bool :=
  match c with Some x => x <=? v | None => false end.

(** What the mapper of a model class knows about its table. *)
Class Model (A : Type) := {
  pk : A -> option Z;
  set_pk : Z -> A -> A;
  (** [default=] of the columns, applied to attributes left unset *)
  column_defaults : datetime -> A -> A;
  (** every integer attribute that is set fits its column *)
  bindable : A -> bool;
  (** the attributes as the engine stores them *)
  as_stored : A -> A;
  (** every [nullable=False] column other than the key is set *)
  not_null_ok : A -> bool;
  (** the [unique=True] columns do not clash with a stored row *)
  unique_ok : list A -> A -> bool
}.

#[export] Instance Stock_Model : Model Stock.t := {
  pk := Stock.id;
  set_pk i x := Stock.mk (Some i) (Stock.symbol x) (Stock.name x) (Stock.exchange x);
  column_defaults _ x := x;
  bindable x := fits_int64 (Stock.id x);
  as_stored x := x;
  not_null_ok x :=
    is_set (Stock.symbol x) && is_set (Stock.name x) && is_set (Stock.exchange x);
  unique_ok tbl x :=
    match Stock.symbol x with
    | Some s => negb (existsb (fun r => col_eq String.eqb (Stock.symbol r) s) tbl)
    | None => true
    end
}.

#[export] Instance HistoricalPrice_Model : Model HistoricalPrice.t := {
  pk := HistoricalPrice.id;
  set_pk i x :=
    HistoricalPrice.mk (Some i) (HistoricalPrice.stock_id x) (HistoricalPrice.date x)
      (HistoricalPrice.open x) (HistoricalPrice.high x) (HistoricalPrice.low x)
      (HistoricalPrice.close x) (HistoricalPrice.volume x);
  column_defaults _ x := x;
  bindable x :=
    fits_int64 (HistoricalPrice.id x) && fits_int64 (HistoricalPrice.stock_id x)
    && fits_int64 (HistoricalPrice.volume x);
  as_stored x :=
    HistoricalPrice.mk (HistoricalPrice.id x) (HistoricalPrice.stock_id x)
      (HistoricalPrice.date x) (store_float (HistoricalPrice.open x))
      (store_float (HistoricalPrice.high x)) (store_float (HistoricalPrice.low x))
      (store_float (HistoricalPrice.close x)) (HistoricalPrice.volume x);
  not_null_ok x :=
    is_set (HistoricalPrice.stock_id x) && is_set (HistoricalPrice.date x)
    && is_set (HistoricalPrice.open x) && is_set (HistoricalPrice.high x)
    && is_set (HistoricalPrice.low x) && is_set (HistoricalPrice.close x)
    && is_set (HistoricalPrice.volume x);
  unique_ok _ _ := true
}.

#[export] Instance LivePrice_Model : Model LivePrice.t := {
  pk := LivePrice.id;
  set_pk i x :=
    LivePrice.mk (Some i) (LivePrice.stock_id x) (LivePrice.timestamp x)
      (LivePrice.price x) (LivePrice.volume x);
  column_defaults now x :=
    LivePrice.mk (LivePrice.id x) (LivePrice.stock_id x)
      (Some (or_else (LivePrice.timestamp x) now))
      (LivePrice.price x) (LivePrice.volume x);
  bindable x :=
    fits_int64 (LivePrice.id x) && fits_int64 (LivePrice.stock_id x)
    && fits_int64 (LivePrice.volume x);
  as_stored x :=
    LivePrice.mk (LivePrice.id x) (LivePrice.stock_id x) (LivePrice.timestamp x)
      (store_float (LivePrice.price x)) (LivePrice.volume x);
  not_null_ok x :=
    is_set (LivePrice.stock_id x) && is_set (LivePrice.timestamp x)
    && is_set (LivePrice.price x) && is_set (LivePrice.volume x);
  unique_ok _ _ := true
}.

#[export] Instance SentimentData_Model : Model SentimentData.t := {
  pk := SentimentData.id;
  set_pk i x :=
    SentimentData.mk (Some i) (SentimentData.source x) (SentimentData.timestamp x)
      (SentimentData.text x) (SentimentData.sentiment_score x)
      (SentimentData.stock_symbol x);
  column_defaults now x :=
    SentimentData.mk (SentimentData.id x) (SentimentData.source x)
      (Some (or_else (SentimentData.timestamp x) now))
      (SentimentData.text x) (SentimentData.sentiment_score x)
      (SentimentData.stock_symbol x);
  bindable x := fits_int64 (SentimentData.id x);
  as_stored x :=
    SentimentData.mk (SentimentData.id x) (SentimentData.source x)
      (SentimentData.timestamp x) (SentimentData.text x)
      (store_float (SentimentData.sentiment_score x)) (SentimentData.stock_symbol x);
  not_null_ok x :=
    is_set (SentimentData.source x) && is_set (SentimentData.timestamp x)
    && is_set (SentimentData.sentiment_score x);
  unique_ok _ _ := true
}.

#[export] Instance TradingTip_Model : Model TradingTip.t := {
  pk := TradingTip.id;
  set_pk i x :=
    TradingTip.mk (Some i) (TradingTip.timestamp x) (TradingTip.stock_symbol x)
      (TradingTip.tip_type x) (TradingTip.action x) (TradingTip.reason x)
      (TradingTip.confidence_score x);
  column_defaults now x :=
    TradingTip.mk (TradingTip.id x) (Some (or_else (TradingTip.timestamp x) now))
      (TradingTip.stock_symbol x) (TradingTip.tip_type x) (TradingTip.action x)
      (TradingTip.reason x) (TradingTip.confidence_score x);
  bindable x := fits_int64 (TradingTip.id x);
  as_stored x :=
    TradingTip.mk (TradingTip.id x) (TradingTip.timestamp x) (TradingTip.stock_symbol x)
      (TradingTip.tip_type x) (TradingTip.action x) (TradingTip.reason x)
      (store_float (TradingTip.confidence_score x));
  not_null_ok x :=
    is_set (TradingTip.timestamp x) && is_set (TradingTip.stock_symbol x)
    && is_set (TradingTip.tip_type x) && is_set (TradingTip.action x)
    && is_set (TradingTip.reason x);
  unique_ok _ _ := true
}.

(** ** The storage engine *)

Inductive constraint := UniqueViolation | NotNullViolation.

(** Exceptions the session raises to the caller. *)
Inductive error :=
| IntegrityError (c : constraint)
| OverflowError
| InvalidRequestError.

Definition result (A : Type) : Type := A + error.

Definition bind {A B : Type} (r : result A) (k : A -> result B) : result B :=
  match r with
  | inl a => k a
  | inr e => inr e
  end.

Notation "x <- r ;; k" := (bind r (fun x => k))
  (at level 61, r at next level, right associativity).
Notation "' pat <- r ;; k" := (bind r (fun x => match x with pat => k end))
  (at level 61, pat pattern, r at next level, right associativity).

(** ** Query building blocks *)

(** Order of the sort keys: NULL sorts before every value. *)
Definition key_le (a b : option datetime) : bool :=
  match a, b with
  | None, _ => true
  | Some _, None => false
  | Some x, Some y => x <=? y
  end.

Section Query.
Context {A : Type}.

Fixpoint insert_sorted (le : A -> A -> bool) (x : A) (l : list A) : list A :=
  match l with
  | [] => [x]
  | y :: l' => if le x y then x :: y :: l' else y :: insert_sorted le x l'
  end.

Definition sort (le : A -> A -> bool) (l : list A) : list A :=
  fold_right (insert_sorted le) [] l.

(** [.order_by(col)] *)
Definition order_by (key : A -> option datetime) (rows : list A) : list A :=
  sort (fun a b => key_le (key a) (key b)) rows.

(** [.order_by(col.desc())] *)
Definition order_by_desc (key : A -> option datetime) (rows : list A) : list A :=
  sort (fun a b => key_le (key b) (key a)) rows.

(** [.offset(k)] *)
Definition offset (k : Z) (rows : list A) : list A := skipn (Z.to_nat k) rows.

(** [.limit(n)] *)
Definition limit (n : Z) (rows : list A) : list A :=
  if n <? 0 then rows else firstn (Z.to_nat n) rows.

(** [.first()] *)
Definition first (rows : list A) : option A := hd_error rows.
End Query.

Section Table.
Context {A : Type} `{Model A}.

Definition has_pk (i : Z) (r : A) : bool := col_eq Z.eqb (pk r) i.

Definition pk_above (i : Z) (r : A) : bool :=
  match pk r with Some j => i <? j | None => false end.

(** Largest key in use. *)
Fixpoint max_pk (tbl : list A) : option Z :=
  match tbl with
  | [] => None
  | r :: tbl' =>
      match pk r, max_pk tbl' with
      | Some i, Some m => Some (Z.max i m)
      | Some i, None => Some i
      | None, m => m
      end
  end.

Definition next_pk (tbl : list A) : Z :=
  match max_pk tbl with
  | Some m => m + 1
  | None => 1
  end.

(** The table is kept in key order: the new row goes before the first
    row with a larger key. *)
Fixpoint place (i : Z) (x : A) (tbl : list A) : list A :=
  match tbl with
  | [] => [x]
  | r :: tbl' => if pk_above i r then x :: r :: tbl' else r :: place i x tbl'
  end.

(** INSERT of one object; returns the object as flushed and the table. *)
Definition insert_row (now : datetime) (tbl : list A) (x : A) : result (A * list A) :=
  let x := column_defaults now x in
  if negb (bindable x) then inr OverflowError
  else
  let x := as_stored x in
  if negb (not_null_ok x) then inr (IntegrityError NotNullViolation)
  else if negb (unique_ok tbl x) then inr (IntegrityError UniqueViolation)
  else
    match pk x with
    | Some i =>
        if existsb (has_pk i) tbl then inr (IntegrityError UniqueViolation)
        else inl (x, place i x tbl)
    | None =>
        let i := next_pk tbl in
        let x := set_pk i x in
        inl (x, place i x tbl)
    end.

(** SELECT ... WHERE id = ? LIMIT 1 *)
Definition select_by_pk (tbl : list A) (i : Z) : option A :=
  first (filter (has_pk i) tbl).
End Table.

Record database := mk_database {
  stocks : list Stock.t;
  historical_prices : list HistoricalPrice.t;
  live_prices : list LivePrice.t;
  sentiment_data : list SentimentData.t;
  trading_tips : list TradingTip.t
}.

Definition empty_database : database := mk_database [] [] [] [] [].

(** An instance of any of the mapped classes ([models.Base]). *)
Inductive entity :=
| EStock (x : Stock.t)
| EHistoricalPrice (x : HistoricalPrice.t)
| ELivePrice (x : LivePrice.t)
| ESentimentData (x : SentimentData.t)
| ETradingTip (x : TradingTip.t).

Definition flush_one (now : datetime) (d : database) (e : entity) : result (entity * database) :=
  match e with
  | EStock x =>
      '(x', t) <- insert_row now (stocks d) x ;;
      inl (EStock x',
           mk_database t (historical_prices d) (live_prices d) (sentiment_data d) (trading_tips d))
  | EHistoricalPrice x =>
      '(x', t) <- insert_row now (historical_prices d) x ;;
      inl (EHistoricalPrice x',
           mk_database (stocks d) t (live_prices d) (sentiment_data d) (trading_tips d))
  | ELivePrice x =>
      '(x', t) <- insert_row now (live_prices d) x ;;
      inl (ELivePrice x',
           mk_database (stocks d) (historical_prices d) t (sentiment_data d) (trading_tips d))
  | ESentimentData x =>
      '(x', t) <- insert_row now (sentiment_data d) x ;;
      inl (ESentimentData x',
           mk_database (stocks d) (historical_prices d) (live_prices d) t (trading_tips d))
  | ETradingTip x =>
      '(x', t) <- insert_row now (trading_tips d) x ;;
      inl (ETradingTip x',
           mk_database (stocks d) (historical_prices d) (live_prices d) (sentiment_data d) t)
  end.

(** Flush of the staged objects, in the order they were added. Returns the
    objects as flushed (with their keys and defaults) and the new store. *)
Fixpoint flush (now : datetime) (d : database) (es : list entity) : result (list entity * database) :=
  match es with
  | [] => inl ([], d)
  | e :: es' =>
      '(e', d') <- flush_one now d e ;;
      '(flushed, d'') <- flush now d' es' ;;
      inl (e' :: flushed, d'')
  end.

(** ** The session *)

Record Session := mk_session {
  store : database;
  pending : list entity
}.

(** What a call leaves behind: a value and the session, or an exception
    and the store the engine holds once the transaction is rolled back. *)
Inductive outcome (A : Type) :=
| Returned (a : A) (db : Session)
| Raised (e : error) (d : database).
Arguments Returned {A} a db.
Arguments Raised {A} e d.

(** [db.add(entity)] *)
Definition add (db : Session) (e : entity) : Session :=
  mk_session (store db) (pending db ++ [e]).

(** [db.add_all(entities)] *)
Definition add_all (db : Session) (es : list entity) : Session :=
  mk_session (store db) (pending db ++ es).

(** [db.commit()]. The value is the list of the objects flushed, which
    stands for the update the flush makes in place to each staged object. *)
Definition commit (now : datetime) (db : Session) : outcome (list entity) :=
  match flush now (store db) (pending db) with
  | inl (flushed, d) => Returned flushed (mk_session d [])
  | inr e => Raised e (store db)
  end.

(** [db.refresh(obj)] for a [Stock]: reload the row by its key. *)
Definition refresh_stock (db : Session) (obj : entity) : result Stock.t :=
  match obj with
  | EStock x =>
      match Stock.id x with
      | Some i =>
          match select_by_pk (stocks (store db)) i with
          | Some row => inl row
          | None => inr InvalidRequestError
          end
      | None => inr InvalidRequestError
      end
  | _ => inr InvalidRequestError
  end.

(** ** data/crud.py *)

(** Default values of the keyword arguments. *)
Definition default_skip : Z := 0.
Definition get_stocks_default_limit : Z := 100.
Definition get_historical_prices_default_limit : Z := 1000.
Definition get_sentiment_data_default_limit : Z := 100.
Definition get_trading_tips_default_limit : Z := 20.
Definition get_trading_tips_default_page : Z := 1.

(** *** Stock *)

Definition get_stock (db : Session) (stock_id : Z) : option Stock.t :=
  first (filter (fun r => col_eq Z.eqb (Stock.id r) stock_id) (stocks (store db))).

Definition get_stock_by_symbol (db : Session) (symbol : string) : option Stock.t :=
  first (filter (fun r => col_eq String.eqb (Stock.symbol r) (upper symbol))
           (stocks (store db))).

Definition get_stocks (db : Session) (skip lim : Z) : list Stock.t :=
  limit lim (offset skip (stocks (store db))).

Definition create_stock (now : datetime) (db : Session) (symbol name : string)
    (exchange : Exchange) : outcome Stock.t :=
  let db_stock := Stock.mk None (Some (upper symbol)) (Some name) (Some exchange) in
  let db := add db (EStock db_stock) in
  match commit now db with
  | Raised e d => Raised e d
  | Returned flushed db =>
      match refresh_stock db (last flushed (EStock db_stock)) with
      | inl db_stock => Returned db_stock db
      | inr e => Raised e (store db)
      end
  end.

(** *** HistoricalPrice *)


Definition add_historical_prices_bulk (now : datetime) (db : Session)
    (prices : list HistoricalPrice.t) : outcome unit :=
  let db := add_all db (map EHistoricalPrice prices) in
  match commit now db with
  | Raised e d => Raised e d
  | Returned _ db => Returned tt db
  end.

Definition get_historical_prices (db : Session) (stock_id : Z)
    (start_date end_date : datetime) (skip lim : Z) : list HistoricalPrice.t :=
  limit lim (offset skip (order_by HistoricalPrice.date
    (filter (fun r =>
               col_eq Z.eqb (HistoricalPrice.stock_id r) stock_id
               && col_ge (HistoricalPrice.date r) start_date
               && col_le (HistoricalPrice.date r) end_date)
       (historical_prices (store db))))).

(** *** LivePrice *)

Definition create_live_price (now : datetime) (db : Session) (stock_id : Z)
    (price : float) (volume : Z) (timestamp : option datetime)
    : LivePrice.t * Session :=
  let db_price :=
    LivePrice.mk None (Some stock_id) (Some (or_else timestamp now)) (Some price)
      (Some volume) in
  let db := add db (ELivePrice db_price) in
  (db_price, db).

Definition add_live_prices_bulk (now : datetime) (db : Session)
    (prices : list LivePrice.t) : outcome unit :=
  let db := add_all db (map ELivePrice prices) in
  match commit now db with
  | Raised e d => Raised e d
  | Returned _ db => Returned tt db
  end.

Definition get_latest_live_price (db : Session) (stock_id : Z) : option LivePrice.t :=
  first (order_by_desc LivePrice.timestamp
    (filter (fun r => col_eq Z.eqb (LivePrice.stock_id r) stock_id)
       (live_prices (store db)))).

(** *** SentimentData *)

Definition create_sentiment_data (now : datetime) (db : Session) (source : string)
    (text : option string) (sentiment_score : float) (stock_symbol : option string)
    (timestamp : option datetime) : SentimentData.t * Session :=
  let db_sentiment :=
    SentimentData.mk None (Some source) (Some (or_else timestamp now)) text
      (Some sentiment_score)
      (if truthy stock_symbol then option_map upper stock_symbol else None) in
  let db := add db (ESentimentData db_sentiment) in
  (db_sentiment, db).

Definition add_sentiment_data_bulk (now : datetime) (db : Session)
    (sentiments : list SentimentData.t) : outcome unit :=
  let db := add_all db (map ESentimentData sentiments) in
  match commit now db with
  | Raised e d => Raised e d
  | Returned _ db => Returned tt db
  end.

Definition get_sentiment_data (db : Session) (stock_symbol : option string)
    (start_date end_date : option datetime) (lim : Z) : list SentimentData.t :=
  let query := sentiment_data (store db) in
  let query :=
    match stock_symbol with
    | Some s =>
        if truthy stock_symbol
        then filter (fun r => col_eq String.eqb (SentimentData.stock_symbol r) (upper s)) query
        else query
    | None => query
    end in
  let query :=
    match start_date with
    | Some t => filter (fun r => col_ge (SentimentData.timestamp r) t) query
    | None => query
    end in
  let query :=
    match end_date with
    | Some t => filter (fun r => col_le (SentimentData.timestamp r) t) query
    | None => query
    end in
  limit lim (order_by_desc SentimentData.timestamp query).

(** *** TradingTip *)

Definition create_trading_tip (now : datetime) (db : Session) (stock_symbol : string)
    (tip_type : TipType) (action : ActionType) (reason : string)
    (confidence_score : option float) (timestamp : option datetime)
    : TradingTip.t * Session :=
  let db_tip :=
    TradingTip.mk None (Some (or_else timestamp now)) (Some (upper stock_symbol))
      (Some tip_type) (Some action) (Some reason) confidence_score in
  let db := add db (ETradingTip db_tip) in
  (db_tip, db).

Definition add_trading_tips_bulk (now : datetime) (db : Session)
    (tips : list TradingTip.t) : outcome unit :=
  let db := add_all db (map ETradingTip tips) in
  match commit now db with
  | Raised e d => Raised e d
  | Returned _ db => Returned tt db
  end.

Definition get_trading_tips (db : Session) (stock_symbol : option string)
    (lim page : Z) : list TradingTip.t :=
  let query := trading_tips (store db) in
  let query :=
    match stock_symbol with
    | Some s =>
        if truthy stock_symbol
        then filter (fun r => col_eq String.eqb (TradingTip.stock_symbol r) (upper s)) query
        else query
    | None => query
    end in
  let off := (page - 1) * lim in
  limit lim (offset off (order_by_desc TradingTip.timestamp query)).

(** ** Vocabulary of the statements *)

(** [x'] is the object [x] as a flush leaves it: the column defaults are
    filled in, the floats are as the engine stores them and, when [x]
    carried no key, the engine has chosen one. *)
Definition flushed_as {A : Type} `{Model A} (now : datetime) (x x' : A) : Prop :=
  let y := as_stored (column_defaults now x) in
  match pk y with
  | Some _ => x' = y
  | None => exists i, x' = set_pk i y
  end.

Definition entity_flushed_as (now : datetime) (e e' : entity) : Prop :=
  match e, e' with
  | EStock x, EStock x' => flushed_as now x x'
  | EHistoricalPrice x, EHistoricalPrice x' => flushed_as now x x'
  | ELivePrice x, ELivePrice x' => flushed_as now x x'
  | ESentimentData x, ESentimentData x' => flushed_as now x x'
  | ETradingTip x, ETradingTip x' => flushed_as now x x'
  | _, _ => False
  end.

(** The row is in its table. *)
Definition stored (d : database) (e : entity) : Prop :=
  match e with
  | EStock x => In x (stocks d)
  | EHistoricalPrice x => In x (historical_prices d)
  | ELivePrice x => In x (live_prices d)
  | ESentimentData x => In x (sentiment_data d)
  | ETradingTip x => In x (trading_tips d)
  end.

(** An attribute that was set keeps its value. *)
Definition kept {A : Type} (given persisted : option A) : Prop :=
  forall v, given = Some v -> persisted = Some v.

(** The row [x'] is the record [x] as given: the key and the timestamp
    are kept when they were set, a float attribute is the one given as the
    engine stores it, every other attribute is the same, set or not. *)
Definition historical_price_as_given (x x' : HistoricalPrice.t) : Prop :=
  kept (HistoricalPrice.id x) (HistoricalPrice.id x') /\
  HistoricalPrice.stock_id x' = HistoricalPrice.stock_id x /\
  HistoricalPrice.date x' = HistoricalPrice.date x /\
  HistoricalPrice.open x' = store_float (HistoricalPrice.open x) /\
  HistoricalPrice.high x' = store_float (HistoricalPrice.high x) /\
  HistoricalPrice.low x' = store_float (HistoricalPrice.low x) /\
  HistoricalPrice.close x' = store_float (HistoricalPrice.close x) /\
  HistoricalPrice.volume x' = HistoricalPrice.volume x.

Definition live_price_as_given (x x' : LivePrice.t) : Prop :=
  kept (LivePrice.id x) (LivePrice.id x') /\
  kept (LivePrice.timestamp x) (LivePrice.timestamp x') /\
  LivePrice.stock_id x' = LivePrice.stock_id x /\
  LivePrice.price x' = store_float (LivePrice.price x) /\
  LivePrice.volume x' = LivePrice.volume x.

Definition sentiment_as_given (x x' : SentimentData.t) : Prop :=
  kept (SentimentData.id x) (SentimentData.id x') /\
  kept (SentimentData.timestamp x) (SentimentData.timestamp x') /\
  SentimentData.source x' = SentimentData.source x /\
  SentimentData.text x' = SentimentData.text x /\
  SentimentData.sentiment_score x' = store_float (SentimentData.sentiment_score x) /\
  SentimentData.stock_symbol x' = SentimentData.stock_symbol x.

Definition tip_as_given (x x' : TradingTip.t) : Prop :=
  kept (TradingTip.id x) (TradingTip.id x') /\
  kept (TradingTip.timestamp x) (TradingTip.timestamp x') /\
  TradingTip.stock_symbol x' = TradingTip.stock_symbol x /\
  TradingTip.tip_type x' = TradingTip.tip_type x /\
  TradingTip.action x' = TradingTip.action x /\
  TradingTip.reason x' = TradingTip.reason x /\
  TradingTip.confidence_score x' = store_float (TradingTip.confidence_score x).

(** The contract of a bulk insert of the records [xs] into [table]: when
    it returns, nothing is left staged, every record of [xs] has its row
    in the table and the rows already stored are kept; when it raises, the
    store is the one before the call. *)
Definition all_or_nothing {A : Type} `{Model A} (now : datetime)
    (table : database -> list A) (db : Session) (xs : list A) (o : outcome unit) : Prop :=
  match o with
  | Returned _ db' =>
      pending db' = [] /\
      (forall x, In x xs -> exists x', flushed_as now x x' /\ In x' (table (store db'))) /\
      (forall r, In r (table (store db)) -> In r (table (store db')))
  | Raised _ d => d = store db
  end.

(** The schema invariant of [Stock.symbol]: no two rows share a symbol. *)
Definition symbols_unique (d : database) : Prop :=
  NoDup (map Stock.symbol (stocks d)).

(** The row carries the symbol, compared in upper case. *)
Definition symbol_is (s : string) (r : Stock.t) : bool :=
  col_eq String.eqb (Stock.symbol r) (upper s).

Definition ascending {A : Type} (key : A -> option datetime) (l : list A) : Prop :=
  StronglySorted (fun a b => key_le (key a) (key b) = true) l.

Definition descending {A : Type} (key : A -> option datetime) (l : list A) : Prop :=
  StronglySorted (fun a b => key_le (key b) (key a) = true) l.

(** The row is a price of the stock dated within [start_date, end_date],
    both ends included. *)
Definition in_date_range (stock_id : Z) (start_date end_date : datetime)
    (r : HistoricalPrice.t) : bool :=
  col_eq Z.eqb (HistoricalPrice.stock_id r) stock_id
  && col_ge (HistoricalPrice.date r) start_date
  && col_le (HistoricalPrice.date r) end_date.

(** The row passes the symbol filter: there is none ([None] or the empty
    string), or the row carries the symbol, compared in upper case. *)
Definition symbol_selected (stock_symbol c : option string) : bool :=
  match stock_symbol with
  | Some s => String.eqb s "" || col_eq String.eqb c (upper s)
  | None => true
  end.

Definition since (start_date : option datetime) (c : option datetime) : bool :=
  match start_date with Some a => col_ge c a | None => true end.

Definition until (end_date : option datetime) (c : option datetime) : bool :=
  match end_date with Some b => col_le c b | None => true end.

Definition sentiment_selected (stock_symbol : option string)
    (start_date end_date : option datetime) (r : SentimentData.t) : bool :=
  symbol_selected stock_symbol (SentimentData.stock_symbol r)
  && since start_date (SentimentData.timestamp r)
  && until end_date (SentimentData.timestamp r).

Definition tip_selected (stock_symbol : option string) (r : TradingTip.t) : bool :=
  symbol_selected stock_symbol (TradingTip.stock_symbol r).

(** The ordered result of each listing, before pagination. *)
Definition historical_prices_ordered (db : Session) (stock_id : Z)
    (start_date end_date : datetime) : list HistoricalPrice.t :=
  order_by HistoricalPrice.date
    (filter (in_date_range stock_id start_date end_date) (historical_prices (store db))).

Definition sentiment_ordered (db : Session) (stock_symbol : option string)
    (start_date end_date : option datetime) : list SentimentData.t :=
  order_by_desc SentimentData.timestamp
    (filter (sentiment_selected stock_symbol start_date end_date)
       (sentiment_data (store db))).

Definition trading_tips_ordered (db : Session) (stock_symbol : option string)
    : list TradingTip.t :=
  order_by_desc TradingTip.timestamp
    (filter (tip_selected stock_symbol) (trading_tips (store db))).

(** ** Sample data *)

Definition fresh_session : Session := mk_session empty_database [].

Definition session_after {A : Type} (o : outcome A) : Session :=
  match o with
  | Returned _ db => db
  | Raised _ d => mk_session d []
  end.

(** A daily bar of stock 1. *)
Definition bar (date : datetime) : HistoricalPrice.t :=
  HistoricalPrice.mk None (Some 1) (Some date) (Some 100%float) (Some 110%float)
    (Some 90%float) (Some 105%float) (Some 5000).

(** Stock 1 with bars dated 2024-01-01 .. 2024-01-10 (dates written
    yyyymmdd), added latest first. *)
Definition january : Session :=
  session_after (add_historical_prices_bulk 0 fresh_session
    (map (fun n => bar (20240111 - Z.of_nat n)) (seq 1 10))).

(** Stock 1 with 1001 bars, dated 1 .. 1001. *)
Definition long_history : Session :=
  session_after (add_historical_prices_bulk 0 fresh_session
    (map (fun n => bar (Z.of_nat n)) (seq 1 1001))).

Definition tick (stock_id : Z) (timestamp : datetime) (price : float) : LivePrice.t :=
  LivePrice.mk None (Some stock_id) (Some timestamp) (Some price) (Some 10).

(** Ticks of stock 1 at 100 < 200 < 300, inserted out of order, and one
    later tick of stock 2. *)
Definition three_ticks : Session :=
  session_after (add_live_prices_bulk 0 fresh_session
    [tick 1 200 2%float; tick 1 300 3%float; tick 2 400 4%float; tick 1 100 1%float]).

Definition opinion (stock_symbol : string) (timestamp : datetime) : SentimentData.t :=
  SentimentData.mk None (Some "NewsAPI") (Some timestamp) None (Some 0.5%float)
    (Some stock_symbol).

Definition two_opinions : Session :=
  session_after (add_sentiment_data_bulk 0 fresh_session
    [opinion "INFY" 1; opinion "INFY" 2]).

Definition lowercase_opinion : Session :=
  session_after (add_sentiment_data_bulk 0 fresh_session
    [opinion "infy" 1; opinion "INFY" 2]).

Definition tip (stock_symbol : string) (timestamp : datetime) : TradingTip.t :=
  TradingTip.mk None (Some timestamp) (Some stock_symbol) (Some SWING) (Some BUY)
    (Some "High volume + positive global sentiment") None.

Definition three_tips : Session :=
  session_after (add_trading_tips_bulk 0 fresh_session
    [tip "INFY" 1; tip "TCS" 2; tip "INFY" 3]).

(** Fifty tips with timestamps 1 .. 50. *)
Definition fifty_tips : Session :=
  session_after (add_trading_tips_bulk 0 fresh_session
    (map (fun n => tip "INFY" (Z.of_nat n)) (seq 1 50))).

(** A bar that lacks its volume: the insert violates NOT NULL. *)
Definition bar_without_volume (date : datetime) : HistoricalPrice.t :=
  HistoricalPrice.mk None (Some 1) (Some date) (Some 100%float) (Some 110%float)
    (Some 90%float) (Some 105%float) None.

(** ** data/crud.py: the generic functions *)

(** A mapped class: the table it is stored in and its constructor among
    the instances of [models.Base]. *)
Class Mapped (A : Type) `{Model A} := {
  table : database -> list A;
  as_entity : A -> entity
}.

#[export] Instance Stock_Mapped : Mapped Stock.t := {
  table := stocks;
  as_entity := EStock
}.

#[export] Instance HistoricalPrice_Mapped : Mapped HistoricalPrice.t := {
  table := historical_prices;
  as_entity := EHistoricalPrice
}.

#[export] Instance LivePrice_Mapped : Mapped LivePrice.t := {
  table := live_prices;
  as_entity := ELivePrice
}.

#[export] Instance SentimentData_Mapped : Mapped SentimentData.t := {
  table := sentiment_data;
  as_entity := ESentimentData
}.

#[export] Instance TradingTip_Mapped : Mapped TradingTip.t := {
  table := trading_tips;
  as_entity := ETradingTip
}.

Definition get_by_id {A : Type} `{Mapped A} (db : Session) (id : Z) : option A :=
  first (filter (fun r => col_eq Z.eqb (pk r) id) (table (store db))).

Definition get_all {A : Type} `{Mapped A} (db : Session) (skip lim : Z) : list A :=
  limit lim (offset skip (table (store db))).

(** Reload of a flushed object by its key. *)
Definition reload {A : Type} `{Model A} (tbl : list A) (x : A) : result A :=
  match pk x with
  | Some i =>
      match select_by_pk tbl i with
      | Some row => inl row
      | None => inr InvalidRequestError
      end
  | None => inr InvalidRequestError
  end.

(** [db.refresh(obj)] for an instance of any mapped class. *)
Definition refresh (db : Session) (obj : entity) : result entity :=
  match obj with
  | EStock x => row <- reload (stocks (store db)) x ;; inl (EStock row)
  | EHistoricalPrice x =>
      row <- reload (historical_prices (store db)) x ;; inl (EHistoricalPrice row)
  | ELivePrice x => row <- reload (live_prices (store db)) x ;; inl (ELivePrice row)
  | ESentimentData x =>
      row <- reload (sentiment_data (store db)) x ;; inl (ESentimentData row)
  | ETradingTip x => row <- reload (trading_tips (store db)) x ;; inl (ETradingTip row)
  end.

Definition create_entity (now : datetime) (db : Session) (obj : entity) : outcome entity :=
  let db := add db obj in
  match commit now db with
  | Raised e d => Raised e d
  | Returned flushed db =>
      match refresh db (last flushed obj) with
      | inl obj => Returned obj db
      | inr e => Raised e (store db)
      end
  end.

(** ** The schema invariant *)

(** What the instances of [Model] agree on: setting the key sets the key
    and touches no other column; filling the defaults leaves the key. *)
Class ModelLaws (A : Type) `{Model A} := {
  pk_set_pk : forall i x, pk (set_pk i x) = Some i;
  not_null_set_pk : forall i x, not_null_ok (set_pk i x) = not_null_ok x;
  pk_as_stored : forall x, pk (as_stored x) = pk x
}.

(** A stored row has its key and every NOT NULL column set. *)
Definition row_ok {A : Type} `{Model A} (r : A) : Prop :=
  is_set (pk r) = true /\ not_null_ok r = true.

(** The rows of a table are well formed and their keys pairwise distinct. *)
Definition table_ok {A : Type} `{Model A} (tbl : list A) : Prop :=
  Forall row_ok tbl /\ NoDup (map pk tbl).

(** The constraints [models.py] declares hold of the whole store. *)
Definition schema_ok (d : database) : Prop :=
  table_ok (stocks d) /\ table_ok (historical_prices d) /\ table_ok (live_prices d) /\
  table_ok (sentiment_data d) /\ table_ok (trading_tips d) /\ symbols_unique d.

(** The key [a] sorts strictly before the key [b]. *)
Definition key_lt (a b : option datetime) : bool := negb (key_le b a).

(** The Prop reading of the symbol and date filters of the listings. *)
Definition has_symbol (stock_symbol c : option string) : Prop :=
  match stock_symbol with
  | Some s => s = "" \/ c = Some (upper s)
  | None => True
  end.

Definition not_before (start_date c : option datetime) : Prop :=
  match start_date with
  | Some a => exists t, c = Some t /\ a <= t
  | None => True
  end.

Definition not_after (end_date c : option datetime) : Prop :=
  match end_date with
  | Some b => exists t, c = Some t /\ t <= b
  | None => True
  end.

(** Once the column defaults are filled in, every integer attribute of the
    object fits its column and every NOT NULL column is set to a value the
    engine stores. *)
Definition complete {A : Type} `{Model A} (now : datetime) (x : A) : bool :=
  bindable (column_defaults now x)
  && not_null_ok (as_stored (column_defaults now x)).

Definition entity_complete (now : datetime) (e : entity) : bool :=
  match e with
  | EStock x => complete now x
  | EHistoricalPrice x => complete now x
  | ELivePrice x => complete now x
  | ESentimentData x => complete now x
  | ETradingTip x => complete now x
  end.

(** The object is new to the engine: it carries no key of its own, and it
    is not a stock, whose symbol could clash with a stored one. *)
Definition entity_new (e : entity) : bool :=
  match e with
  | EStock _ => false
  | EHistoricalPrice x => negb (is_set (HistoricalPrice.id x))
  | ELivePrice x => negb (is_set (LivePrice.id x))
  | ESentimentData x => negb (is_set (SentimentData.id x))
  | ETradingTip x => negb (is_set (TradingTip.id x))
  end.

(** Nothing staged on the session can make a commit fail: every staged
    object is new and complete. *)
Definition ready (now : datetime) (db : Session) : Prop :=
  forall e, In e (pending db) -> entity_new e = true /\ entity_complete now e = true.

(** The contract of a bulk insert in full: the outcome is all or nothing;
    the call returns when nothing staged can fail and every record of the
    list is new and complete; it raises, with the store unchanged, when a
    record of the list is not complete. *)
Definition bulk_contract {A : Type} `{Model A} (now : datetime)
    (table : database -> list A) (db : Session) (xs : list A) (o : outcome unit) : Prop :=
  all_or_nothing now table db xs o /\
  (ready now db ->
   (forall x, In x xs -> pk x = None /\ complete now x = true) ->
   exists db', o = Returned tt db') /\
  (forall x, In x xs -> complete now x = false ->
   exists err, o = Raised err (store db)).

(** The reciprocal of the float is negative: what tells the negative zero
    from zero. *)
Definition reciprocal_negative (o : option float) : bool :=
  match o with
  | Some f => PrimFloat.ltb (1 / f)%float 0%float
  | None => false
  end.

(** Pages [1 .. n] of a listing, one after the other. *)
Definition pages {A : Type} (page : Z -> list A) (n : nat) : list A :=
  List.concat (map (fun p => page (Z.of_nat p)) (seq 1 n)).


(** A sentiment record whose score is the negative zero. *)
Definition negative_zero_opinion : SentimentData.t :=
  SentimentData.mk None (Some "NewsAPI") (Some 1) None (Some (-0)%float) (Some "infy").

(** A stock as a caller of [create_entity] may build it, symbol untouched. *)
Definition raw_stock (symbol name : string) (exchange : Exchange) : Stock.t :=
  Stock.mk None (Some symbol) (Some name) (Some exchange).

(** Two stored stocks and a staged bar. *)
Definition two_stocks : Session :=
  session_after
    (create_stock 0
       (session_after (create_stock 0 fresh_session "infy" "Infosys" NSE))
       "tcs" "Tata Consultancy Services" BSE).

(** * Properties *)

(** ** Strings *)

Lemma char_upper_idem (c : ascii) : char_upper (char_upper c) = char_upper c.
Proof. destruct c as [[] [] [] [] [] [] [] []]; reflexivity. Qed.

Lemma char_upper_lower (c : ascii) : char_upper (char_lower c) = char_upper c.
Proof. destruct c as [[] [] [] [] [] [] [] []]; reflexivity. Qed.

Lemma char_same_letter_upper (c c' : ascii) :
  char_same_letter c c' = true -> char_upper c' = char_upper c.
Proof.
  unfold char_same_letter.
  rewrite !orb_true_iff, !Ascii.eqb_eq.
  intros [[-> | ->] | ->];
    auto using char_upper_idem, char_upper_lower.
Qed.

Lemma casing_of_upper (s s' : string) :
  casing_of s s' = true -> upper s' = upper s.
Proof.
  revert s'; induction s as [|c s IH]; intros [|c' s']; simpl; try discriminate; auto.
  rewrite andb_true_iff. intros [Hc Hs].
  now rewrite (char_same_letter_upper _ _ Hc), (IH _ Hs).
Qed.

Lemma casing_of_refl (s : string) : casing_of s s = true.
Proof.
  induction s as [|c s IH]; simpl; auto.
  unfold char_same_letter. now rewrite Ascii.eqb_refl, IH.
Qed.

Lemma casing_of_to_upper (s : string) : casing_of s (upper s) = true.
Proof.
  induction s as [|c s IH]; simpl; auto.
  unfold char_same_letter. now rewrite (Ascii.eqb_refl (char_upper c)), orb_true_r, IH.
Qed.

Lemma casing_of_to_lower (s : string) : casing_of s (lower s) = true.
Proof.
  induction s as [|c s IH]; simpl; auto.
  unfold char_same_letter. now rewrite (Ascii.eqb_refl (char_lower c)), orb_true_r, IH.
Qed.

Lemma upper_idem (s : string) : upper (upper s) = upper s.
Proof. induction s as [|c s IH]; simpl; [|rewrite char_upper_idem, IH]; reflexivity. Qed.


Lemma truthy_Some (s : string) : truthy (Some s) = true <-> s <> "".
Proof.
  unfold truthy. rewrite negb_true_iff. split.
  - intros E ->. discriminate.
  - intros N. apply String.eqb_neq. exact N.
Qed.

Lemma col_eq_string (c : option string) (v : string) :
  col_eq String.eqb c v = true <-> c = Some v.
Proof.
  destruct c as [x|]; simpl.
  - rewrite String.eqb_eq. split; congruence.
  - split; discriminate.
Qed.

Lemma col_eq_Z (c : option Z) (v : Z) : col_eq Z.eqb c v = true <-> c = Some v.
Proof.
  destruct c as [x|]; simpl.
  - rewrite Z.eqb_eq. split; congruence.
  - split; discriminate.
Qed.

(** ** Ordering and pagination *)

Lemma key_le_total (a b : option datetime) : key_le a b = true \/ key_le b a = true.
Proof. destruct a, b; simpl; auto. rewrite !Z.leb_le. lia. Qed.

Lemma key_le_trans (a b c : option datetime) :
  key_le a b = true -> key_le b c = true -> key_le a c = true.
Proof. destruct a, b, c; simpl; auto; try discriminate. rewrite !Z.leb_le. lia. Qed.

Section SortFacts.
Context {A : Type} (le : A -> A -> bool).
Hypothesis le_total : forall a b, le a b = true \/ le b a = true.
Hypothesis le_trans : forall a b c, le a b = true -> le b c = true -> le a c = true.

Lemma insert_sorted_perm (x : A) (l : list A) : Permutation (insert_sorted le x l) (x :: l).
Proof.
  induction l as [|y l IH]; simpl; auto.
  destruct (le x y); auto.
  rewrite IH. apply perm_swap.
Qed.

Lemma sort_perm (l : list A) : Permutation (sort le l) l.
Proof.
  induction l as [|x l IH]; simpl; auto.
  rewrite insert_sorted_perm. now constructor.
Qed.

Lemma insert_sorted_sorted (x : A) (l : list A) :
  StronglySorted (fun a b => le a b = true) l ->
  StronglySorted (fun a b => le a b = true) (insert_sorted le x l).
Proof.
  induction 1 as [|y l Hl IH Hy]; simpl.
  - repeat constructor.
  - destruct (le x y) eqn:E.
    + constructor; [now constructor|].
      constructor; auto.
      eapply Forall_impl; [|exact Hy]. intros z Hz. eauto.
    + constructor; auto.
      destruct (le_total x y) as [F|F]; [congruence|].
      eapply Permutation_Forall; [symmetry; apply insert_sorted_perm|].
      constructor; auto.
Qed.

Lemma sort_sorted (l : list A) : StronglySorted (fun a b => le a b = true) (sort le l).
Proof.
  induction l as [|x l IH]; simpl; [constructor | now apply insert_sorted_sorted].
Qed.
End SortFacts.

Lemma order_by_perm {A : Type} (key : A -> option datetime) (l : list A) :
  Permutation (order_by key l) l.
Proof. apply sort_perm. Qed.

Lemma order_by_desc_perm {A : Type} (key : A -> option datetime) (l : list A) :
  Permutation (order_by_desc key l) l.
Proof. apply sort_perm. Qed.

Lemma order_by_ascending {A : Type} (key : A -> option datetime) (l : list A) :
  ascending key (order_by key l).
Proof.
  apply (sort_sorted (fun a b => key_le (key a) (key b))).
  - intros; apply key_le_total.
  - intros a b c; apply key_le_trans.
Qed.

Lemma order_by_desc_descending {A : Type} (key : A -> option datetime) (l : list A) :
  descending key (order_by_desc key l).
Proof.
  apply (sort_sorted (fun a b => key_le (key b) (key a))).
  - intros; apply key_le_total.
  - intros a b c H1 H2. eapply key_le_trans; eauto.
Qed.

Lemma limit_nonneg {A : Type} (n : Z) (l : list A) :
  0 <= n -> limit n l = firstn (Z.to_nat n) l.
Proof. intros Hn. unfold limit. destruct (n <? 0) eqn:E; [apply Z.ltb_lt in E; lia | reflexivity]. Qed.

Lemma limit_length {A : Type} (n : Z) (l : list A) :
  0 <= n -> Z.of_nat (List.length (limit n l)) <= n.
Proof.
  intros Hn. rewrite limit_nonneg by assumption.
  pose proof (firstn_le_length (Z.to_nat n) l).
  rewrite List.length_firstn. lia.
Qed.

Lemma limit_all {A : Type} (n : Z) (l : list A) :
  Z.of_nat (List.length l) <= n -> limit n l = l.
Proof.
  intros Hn. rewrite limit_nonneg by lia. apply firstn_all2. lia.
Qed.

(** ** Tables *)

Section TableFacts.
Context {A : Type} `{Model A}.

Lemma in_place (i : Z) (x r : A) (tbl : list A) :
  In r (place i x tbl) <-> r = x \/ In r tbl.
Proof.
  induction tbl as [|y tbl IH]; simpl.
  - intuition congruence.
  - destruct (pk_above i y); simpl; rewrite ?IH; intuition congruence.
Qed.


Lemma filter_place_only (p : A -> bool) (i : Z) (x : A) (tbl : list A) :
  existsb p tbl = false -> p x = true -> filter p (place i x tbl) = [x].
Proof.
  intros Hn Hx. induction tbl as [|y tbl IH]; simpl in *.
  - now rewrite Hx.
  - apply orb_false_iff in Hn as [Hy Ht].
    destruct (pk_above i y); simpl; rewrite ?Hx, Hy.
    + f_equal. clear IH. induction tbl as [|z tbl IH]; simpl in *; auto.
      apply orb_false_iff in Ht as [Hz Ht]. rewrite Hz. auto.
    + auto.
Qed.

Lemma place_perm (i : Z) (x : A) (tbl : list A) : Permutation (place i x tbl) (x :: tbl).
Proof.
  induction tbl as [|y tbl IH]; simpl; [reflexivity|].
  destruct (pk_above i y); [reflexivity|].
  rewrite IH. apply perm_swap.
Qed.

Lemma max_pk_bound (tbl : list A) (r : A) (j : Z) :
  In r tbl -> pk r = Some j -> exists m, max_pk tbl = Some m /\ j <= m.
Proof.
  induction tbl as [|y tbl IH]; simpl; [tauto|].
  intros [->|Hin] Hj.
  - rewrite Hj. destruct (max_pk tbl) as [m|]; eexists; split; eauto; lia.
  - destruct (IH Hin Hj) as (m & -> & Hm).
    destruct (pk y); eexists; split; eauto; lia.
Qed.

(** The key the engine chooses is not in use. *)
Lemma next_pk_fresh (tbl : list A) : existsb (has_pk (next_pk tbl)) tbl = false.
Proof.
  destruct (existsb (has_pk (next_pk tbl)) tbl) eqn:E; [|reflexivity].
  apply existsb_exists in E as (r & Hin & Hr).
  apply col_eq_Z in Hr.
  destruct (max_pk_bound _ _ _ Hin Hr) as (m & Hm & Hle).
  unfold next_pk in Hle. rewrite Hm in Hle. lia.
Qed.

(** A successful insert adds the flushed object and keeps every row. *)
Lemma insert_row_spec (now : datetime) (tbl tbl' : list A) (x x' : A) :
  insert_row now tbl x = inl (x', tbl') ->
  flushed_as now x x' /\ forall r, In r tbl' <-> r = x' \/ In r tbl.
Proof.
  unfold insert_row, flushed_as.
  destruct (bindable _); simpl; [|discriminate].
  destruct (not_null_ok _); simpl; [|discriminate].
  destruct (unique_ok _ _); simpl; [|discriminate].
  destruct (pk (as_stored (column_defaults now x))) as [i|].
  - destruct (existsb _ _); [discriminate|].
    intros [= <- <-]. split; [reflexivity | intros; apply in_place].
  - intros [= <- <-]. split; [eauto | intros; apply in_place].
Qed.
End TableFacts.

(** ** Flush and commit *)

Lemma flush_one_spec (now : datetime) (d d' : database) (e e' : entity) :
  flush_one now d e = inl (e', d') ->
  entity_flushed_as now e e' /\ stored d' e' /\ forall e0, stored d e0 -> stored d' e0.
Proof.
  destruct e as [x|x|x|x|x]; simpl;
    destruct (insert_row now _ x) as [[x' t]|err] eqn:E; simpl; try discriminate;
    intros [= <- <-]; apply insert_row_spec in E as [Hf Hin];
    (split; [exact Hf|]); (split; [simpl; apply Hin; auto|]);
    intros [y|y|y|y|y]; simpl; auto; intros Hy; apply Hin; auto.
Qed.

Lemma flush_spec (now : datetime) (es : list entity) :
  forall (d d' : database) (flushed : list entity),
  flush now d es = inl (flushed, d') ->
  Forall2 (entity_flushed_as now) es flushed /\
  Forall (stored d') flushed /\
  forall e0, stored d e0 -> stored d' e0.
Proof.
  induction es as [|e es IH]; simpl; intros d d' flushed.
  - intros [= <- <-]. repeat split; auto.
  - destruct (flush_one now d e) as [[e' d1]|err] eqn:E1; simpl; [|discriminate].
    destruct (flush now d1 es) as [[fl d2]|err] eqn:E2; simpl; [|discriminate].
    intros [= <- <-].
    apply flush_one_spec in E1 as (Hf & Hs & Hm).
    apply IH in E2 as (Hfs & Hss & Hms).
    repeat split; auto.
Qed.

Lemma flush_app (now : datetime) (es1 es2 : list entity) (d : database) :
  flush now d (es1 ++ es2) =
  ('(f1, d1) <- flush now d es1 ;;
   '(f2, d2) <- flush now d1 es2 ;;
   inl ((f1 ++ f2)%list, d2)).
Proof.
  revert d; induction es1 as [|e es1 IH]; intros d; simpl.
  - destruct (flush now d es2) as [[f2 d2]|err]; reflexivity.
  - destruct (flush_one now d e) as [[e' d1]|err]; simpl; [|reflexivity].
    rewrite IH.
    destruct (flush now d1 es1) as [[f1 d2]|err]; simpl; [|reflexivity].
    destruct (flush now d2 es2) as [[f2 d3]|err]; reflexivity.
Qed.

(** A commit either installs the flushed store and empties the staging
    list, or raises and leaves the store as it was. *)
Lemma commit_spec (now : datetime) (db : Session) :
  match commit now db with
  | Returned flushed db' =>
      flush now (store db) (pending db) = inl (flushed, store db') /\ pending db' = []
  | Raised _ d => d = store db
  end.
Proof.
  unfold commit. destruct (flush now (store db) (pending db)) as [[fl d]|err]; simpl; auto.
Qed.

(** ** The uniqueness invariant *)

Lemma place_symbols_unique (i : Z) (x : Stock.t) (s : string) (tbl : list Stock.t) :
  NoDup (map Stock.symbol tbl) ->
  existsb (fun r => col_eq String.eqb (Stock.symbol r) s) tbl = false ->
  Stock.symbol x = Some s ->
  NoDup (map Stock.symbol (place i x tbl)).
Proof.
  intros Hnd Hu Hx.
  eapply Permutation_NoDup.
  - symmetry. apply Permutation_map. apply place_perm.
  - simpl. constructor; [|exact Hnd].
    rewrite Hx, in_map_iff. intros (r & Hr & Hin).
    assert (existsb (fun r => col_eq String.eqb (Stock.symbol r) s) tbl = true) as F.
    { apply existsb_exists. exists r. split; [exact Hin | now apply col_eq_string]. }
    congruence.
Qed.

Lemma flush_one_symbols_unique (now : datetime) (d d' : database) (e e' : entity) :
  symbols_unique d -> flush_one now d e = inl (e', d') -> symbols_unique d'.
Proof.
  unfold symbols_unique. intros Hnd.
  destruct e as [x|x|x|x|x]; simpl;
    try (destruct (insert_row now _ x) as [[x' t]|err]; simpl; try discriminate;
         intros [= <- <-]; exact Hnd).
  unfold insert_row. simpl.
  destruct (fits_int64 (Stock.id x)); simpl; [|discriminate].
  destruct (Stock.symbol x) as [s|] eqn:Hs; simpl; [|discriminate].
  destruct (is_set (Stock.name x) && is_set (Stock.exchange x)); simpl; [|discriminate].
  destruct (existsb _ (stocks d)) eqn:Hu; simpl; [discriminate|].
  destruct (Stock.id x) as [i|].
  - destruct (existsb (has_pk i) (stocks d)); simpl; [discriminate|].
    intros [= <- <-]. simpl. eapply place_symbols_unique; eauto.
  - simpl. intros [= <- <-]. simpl. eapply place_symbols_unique; eauto.
Qed.


(** ** create_stock *)

(** What a successful [create_stock] did: it flushed what was staged,
    found the symbol unused, and placed the new row under a fresh key. *)
Lemma create_stock_returned (now : datetime) (db db' : Session)
    (symbol name : string) (exchange : Exchange) (st : Stock.t) :
  create_stock now db symbol name exchange = Returned st db' ->
  exists flushed d i,
    flush now (store db) (pending db) = inl (flushed, d) /\
    existsb (symbol_is symbol) (stocks d) = false /\
    existsb (has_pk i) (stocks d) = false /\
    st = Stock.mk (Some i) (Some (upper symbol)) (Some name) (Some exchange) /\
    db' = mk_session
            (mk_database (place i st (stocks d)) (historical_prices d) (live_prices d)
               (sentiment_data d) (trading_tips d)) [].
Proof.
  unfold create_stock, commit, add. simpl. rewrite flush_app.
  destruct (flush now (store db) (pending db)) as [[fl d]|err]; simpl; [|discriminate].
  unfold insert_row; simpl.
  fold (symbol_is symbol).
  destruct (existsb (symbol_is symbol) (stocks d)) eqn:U; simpl; [discriminate|].
  rewrite last_last. simpl. unfold select_by_pk.
  rewrite filter_place_only; simpl.
  - intros [= <- <-]. exists fl, d, (next_pk (stocks d)).
    repeat split; auto using next_pk_fresh.
  - apply next_pk_fresh.
  - unfold has_pk; simpl. apply Z.eqb_refl.
Qed.

(** Conversely the call returns whenever the flush of what was staged
    succeeds and the symbol is unused afterwards. *)
Lemma create_stock_returns (now : datetime) (db : Session)
    (symbol name : string) (exchange : Exchange)
    (flushed : list entity) (d : database) :
  flush now (store db) (pending db) = inl (flushed, d) ->
  existsb (symbol_is symbol) (stocks d) = false ->
  exists st db', create_stock now db symbol name exchange = Returned st db'.
Proof.
  intros Hf Hu.
  unfold create_stock, commit, add. simpl. rewrite flush_app, Hf. simpl.
  unfold insert_row; simpl. fold (symbol_is symbol). rewrite Hu. simpl.
  rewrite last_last. simpl. unfold select_by_pk.
  rewrite filter_place_only; simpl; eauto using next_pk_fresh.
  unfold has_pk; simpl. apply Z.eqb_refl.
Qed.









(** ** Listings *)

Lemma filter_filter {A : Type} (p q : A -> bool) (l : list A) :
  filter q (filter p l) = filter (fun r => p r && q r) l.
Proof.
  induction l as [|x l IH]; simpl; [reflexivity|].
  destruct (p x); simpl; [destruct (q x)|]; now rewrite IH.
Qed.

Lemma in_limit {A : Type} (n : Z) (l : list A) (r : A) : In r (limit n l) -> In r l.
Proof.
  unfold limit. destruct (n <? 0); [auto|].
  intros Hr. rewrite <- (firstn_skipn (Z.to_nat n) l). apply in_or_app. now left.
Qed.

Lemma in_offset {A : Type} (k : Z) (l : list A) (r : A) : In r (offset k l) -> In r l.
Proof.
  unfold offset. intros Hr. rewrite <- (firstn_skipn (Z.to_nat k) l).
  apply in_or_app. now right.
Qed.

Lemma in_date_range_iff (stock_id : Z) (a b : datetime) (r : HistoricalPrice.t) :
  in_date_range stock_id a b r = true <->
  HistoricalPrice.stock_id r = Some stock_id /\
  exists t, HistoricalPrice.date r = Some t /\ a <= t <= b.
Proof.
  unfold in_date_range, col_ge, col_le.
  rewrite !andb_true_iff, col_eq_Z.
  destruct (HistoricalPrice.date r) as [t|].
  - rewrite !Z.leb_le. split.
    + intros [[Hs Ha] Hb]. split; [exact Hs|]. exists t. split; [reflexivity | lia].
    + intros [Hs (t' & [= <-] & Ht)]. repeat split; tauto.
  - split.
    + intros [[_ F] _]. discriminate.
    + intros [_ (t & F & _)]. discriminate.
Qed.

Lemma symbol_selected_Some (f : string) (c : option string) :
  f <> "" -> symbol_selected (Some f) c = true -> c = Some (upper f).
Proof.
  intros Hf. unfold symbol_selected.
  apply String.eqb_neq in Hf. rewrite Hf. simpl. apply col_eq_string.
Qed.

Lemma get_historical_prices_eq (db : Session) (stock_id : Z) (a b : datetime) (skip lim : Z) :
  get_historical_prices db stock_id a b skip lim =
  limit lim (offset skip (historical_prices_ordered db stock_id a b)).
Proof. reflexivity. Qed.

Lemma get_sentiment_data_eq (db : Session) (stock_symbol : option string)
    (start_date end_date : option datetime) (lim : Z) :
  get_sentiment_data db stock_symbol start_date end_date lim =
  limit lim (sentiment_ordered db stock_symbol start_date end_date).
Proof.
  unfold get_sentiment_data, sentiment_ordered. do 2 f_equal.
  set (tbl := sentiment_data (store db)).
  assert (H1 : match stock_symbol with
               | Some s =>
                   if truthy stock_symbol
                   then filter (fun r => col_eq String.eqb (SentimentData.stock_symbol r)
                                           (upper s)) tbl
                   else tbl
               | None => tbl
               end
               = filter (fun r => symbol_selected stock_symbol (SentimentData.stock_symbol r))
                   tbl).
  { destruct stock_symbol as [s|]; simpl; [|now rewrite filter_true].
    destruct (String.eqb s ""); simpl; [now rewrite filter_true | reflexivity]. }
  rewrite H1. clear H1.
  unfold sentiment_selected.
  destruct start_date as [a|], end_date as [b|]; simpl; rewrite ?filter_filter;
    apply filter_ext; intros r; unfold since, until; rewrite ?andb_true_r, ?andb_assoc; reflexivity.
Qed.

Lemma get_trading_tips_eq (db : Session) (stock_symbol : option string) (lim page : Z) :
  get_trading_tips db stock_symbol lim page =
  limit lim (offset ((page - 1) * lim) (trading_tips_ordered db stock_symbol)).
Proof.
  unfold get_trading_tips, trading_tips_ordered, tip_selected. do 3 f_equal.
  destruct stock_symbol as [s|]; simpl; [|now rewrite filter_true].
  destruct (String.eqb s ""); simpl; [now rewrite filter_true | reflexivity].
Qed.

(** C3: for every store, page [page >= 1] and limit [lim >= 0],
    [get_trading_tips] orders the selected tips by timestamp, latest
    first, skips the first [(page - 1) * lim] of them and returns at most
    [lim]; with limit 20 and page 2 these are records 21 to 40. *)
Theorem get_trading_tips_page (db : Session) (stock_symbol : option string) (lim page : Z) :
  1 <= page -> 0 <= lim ->
  let ordered := trading_tips_ordered db stock_symbol in
  Permutation ordered (filter (tip_selected stock_symbol) (trading_tips (store db))) /\
  descending TradingTip.timestamp ordered /\
  get_trading_tips db stock_symbol lim page =
    firstn (Z.to_nat lim) (skipn (Z.to_nat ((page - 1) * lim)) ordered) /\
  Z.of_nat (List.length (get_trading_tips db stock_symbol lim page)) <= lim /\
  get_trading_tips db stock_symbol 20 2 = firstn 20 (skipn 20 ordered).
Proof.
  intros Hp Hl ordered.
  split; [apply order_by_desc_perm|].
  split; [apply order_by_desc_descending|].
  rewrite !get_trading_tips_eq.
  split; [now rewrite limit_nonneg|].
  split; [now apply limit_length | reflexivity].
Qed.

Lemma get_trading_tips_page_witness :
  map TradingTip.timestamp (get_trading_tips fifty_tips None 20 2)
  = map (fun n => Some (Z.of_nat n)) (rev (seq 11 20)).
Proof.
  destruct (get_trading_tips_page fifty_tips None 20 2) as (_ & _ & -> & _); [lia | lia |].
  vm_compute. reflexivity.
Defined.

(** C4, as stated, fails once more records match than the limit lets
    through: the 1001 bars of [long_history] all lie within the range,
    the call with the default [skip] and [limit] returns 1000 of them, and
    the bar dated 1001 is not among these. *)
Lemma get_historical_prices_truncated :
  List.length
    (filter (in_date_range 1 1 1001) (historical_prices (store long_history)))
  = 1001%nat /\
  List.length
    (get_historical_prices long_history 1 1 1001 default_skip
       get_historical_prices_default_limit)
  = 1000%nat /\
  existsb (fun r => col_eq Z.eqb (HistoricalPrice.date r) 1001)
    (filter (in_date_range 1 1 1001) (historical_prices (store long_history)))
  = true /\
  existsb (fun r => col_eq Z.eqb (HistoricalPrice.date r) 1001)
    (get_historical_prices long_history 1 1 1001 default_skip
       get_historical_prices_default_limit)
  = false.
Proof. split; [|split; [|split]]; vm_compute; reflexivity. Qed.

(** C4, amended: for every stock, date range, [skip >= 0] and
    [lim >= 0], [get_historical_prices] orders the prices of that stock
    dated within the range, both ends included, by date ascending, skips
    the first [skip] and returns at most [lim] of them; it returns
    exactly all of them when [skip = 0] and no more than [lim] match. *)
Theorem get_historical_prices_range (db : Session) (stock_id : Z) (a b : datetime)
    (skip lim : Z) :
  0 <= skip -> 0 <= lim ->
  let ordered := historical_prices_ordered db stock_id a b in
  Permutation ordered
    (filter (in_date_range stock_id a b) (historical_prices (store db))) /\
  (forall r, In r ordered <->
     In r (historical_prices (store db)) /\
     HistoricalPrice.stock_id r = Some stock_id /\
     exists t, HistoricalPrice.date r = Some t /\ a <= t <= b) /\
  ascending HistoricalPrice.date ordered /\
  get_historical_prices db stock_id a b skip lim =
    firstn (Z.to_nat lim) (skipn (Z.to_nat skip) ordered) /\
  (skip = 0 -> Z.of_nat (List.length ordered) <= lim ->
   get_historical_prices db stock_id a b skip lim = ordered).
Proof.
  intros Hs Hl ordered.
  assert (HP : Permutation ordered
                 (filter (in_date_range stock_id a b) (historical_prices (store db))))
    by apply order_by_perm.
  split; [exact HP|].
  split.
  { intros r. rewrite <- in_date_range_iff, <- filter_In.
    split; apply Permutation_in; [exact HP | symmetry; exact HP]. }
  split; [apply order_by_ascending|].
  rewrite get_historical_prices_eq. fold ordered.
  split; [now rewrite limit_nonneg|].
  intros -> Hn. unfold offset. simpl. now apply limit_all.
Qed.

Lemma get_historical_prices_range_witness :
  map HistoricalPrice.date
    (get_historical_prices january 1 20240103 20240105 default_skip
       get_historical_prices_default_limit)
  = [Some 20240103; Some 20240104; Some 20240105].
Proof.
  assert (Hs : 0 <= default_skip) by (unfold default_skip; lia).
  assert (Hl : 0 <= get_historical_prices_default_limit)
    by (unfold get_historical_prices_default_limit; lia).
  destruct (get_historical_prices_range january 1 20240103 20240105 _ _ Hs Hl)
    as (_ & _ & _ & _ & Hall).
  rewrite Hall; [vm_compute; reflexivity | reflexivity | vm_compute; discriminate].
Defined.

(** C5: [get_latest_live_price] returns a live price of the stock whose
    timestamp no other live price of that stock exceeds, and returns
    [None], without raising, exactly when the stock has no live price. *)
Theorem get_latest_live_price_max (db : Session) (stock_id : Z) :
  match get_latest_live_price db stock_id with
  | Some r =>
      In r (live_prices (store db)) /\
      LivePrice.stock_id r = Some stock_id /\
      forall r', In r' (live_prices (store db)) ->
        LivePrice.stock_id r' = Some stock_id ->
        key_le (LivePrice.timestamp r') (LivePrice.timestamp r) = true
  | None =>
      forall r', In r' (live_prices (store db)) ->
        LivePrice.stock_id r' <> Some stock_id
  end.
Proof.
  unfold get_latest_live_price, first.
  set (p := fun r => col_eq Z.eqb (LivePrice.stock_id r) stock_id).
  set (rows := filter p (live_prices (store db))).
  pose proof (order_by_desc_perm LivePrice.timestamp rows) as HP.
  pose proof (order_by_desc_descending LivePrice.timestamp rows) as HS.
  assert (Hrows : forall r, In r rows <->
            In r (live_prices (store db)) /\ LivePrice.stock_id r = Some stock_id).
  { intros r. unfold rows. rewrite filter_In. unfold p. now rewrite col_eq_Z. }
  destruct (order_by_desc LivePrice.timestamp rows) as [|r l]; simpl.
  - intros r' Hin Hr'.
    apply Permutation_nil in HP.
    assert (In r' rows) as F by (apply Hrows; auto).
    rewrite HP in F. exact F.
  - assert (In r rows) as Hr by (eapply Permutation_in; [exact HP | now left]).
    apply Hrows in Hr as [Hin Hid].
    repeat split; auto.
    intros r' Hin' Hid'.
    assert (In r' (r :: l)) as [<- | Hl].
    { eapply Permutation_in; [symmetry; exact HP | apply Hrows; auto]. }
    + destruct (key_le_total (LivePrice.timestamp r) (LivePrice.timestamp r)); auto.
    + apply StronglySorted_inv in HS as [_ HF].
      rewrite Forall_forall in HF. auto.
Qed.

Lemma get_latest_live_price_three_ticks :
  option_map LivePrice.timestamp (get_latest_live_price three_ticks 1) = Some (Some 300)
  /\ get_latest_live_price three_ticks 3 = None.
Proof. split; reflexivity. Qed.

(** C8, as stated, fails for two of the four listings.
    [get_sentiment_data] has no offset: whatever its limit, it cannot
    return the second of two records alone. [get_trading_tips] only skips
    multiples of the limit: with limit 2 no page starts at the second of
    three tips. *)
Lemma listings_without_offset :
  (~ exists lim,
       get_sentiment_data two_opinions None None None lim
       = firstn 1 (skipn 1 (sentiment_ordered two_opinions None None None))) /\
  (~ exists page,
       get_trading_tips three_tips None 2 page
       = firstn 2 (skipn 1 (trading_tips_ordered three_tips None))).
Proof.
  split.
  - intros [lim E]. rewrite get_sentiment_data_eq in E.
    vm_compute sentiment_ordered in E.
    unfold limit in E. destruct (lim <? 0); [discriminate|].
    destruct (Z.to_nat lim) as [|[|n]]; discriminate.
  - intros [page E]. rewrite get_trading_tips_eq in E.
    vm_compute trading_tips_ordered in E.
    unfold limit, offset in E. simpl in E.
    destruct (Z.to_nat ((page - 1) * 2)) as [|[|[|n]]] eqn:K;
      simpl in E; try discriminate.
    + lia.
    + rewrite skipn_nil in E. discriminate.
Qed.

(** C8, amended: for every offset [k >= 0] and limit [lim >= 0],
    [get_stocks] and [get_historical_prices] skip the first [k] records of
    their ordered result and return at most [lim]; [get_sentiment_data]
    takes a limit only and returns the first [lim] records of its ordered
    result; [get_trading_tips] takes a limit and a page number [page >= 1]
    and skips [(page - 1) * lim] records. *)
Theorem listing_pagination (db : Session) (k lim : Z) :
  0 <= k -> 0 <= lim ->
  (get_stocks db k lim
   = firstn (Z.to_nat lim) (skipn (Z.to_nat k) (stocks (store db))) /\
   Z.of_nat (List.length (get_stocks db k lim)) <= lim) /\
  (forall stock_id a b,
     get_historical_prices db stock_id a b k lim
     = firstn (Z.to_nat lim)
         (skipn (Z.to_nat k) (historical_prices_ordered db stock_id a b)) /\
     Z.of_nat (List.length (get_historical_prices db stock_id a b k lim)) <= lim) /\
  (forall stock_symbol start_date end_date,
     get_sentiment_data db stock_symbol start_date end_date lim
     = firstn (Z.to_nat lim) (sentiment_ordered db stock_symbol start_date end_date) /\
     Z.of_nat (List.length (get_sentiment_data db stock_symbol start_date end_date lim))
     <= lim) /\
  (forall stock_symbol page, 1 <= page ->
     get_trading_tips db stock_symbol lim page
     = firstn (Z.to_nat lim)
         (skipn (Z.to_nat ((page - 1) * lim)) (trading_tips_ordered db stock_symbol)) /\
     Z.of_nat (List.length (get_trading_tips db stock_symbol lim page)) <= lim).
Proof.
  intros Hk Hl.
  split; [|split; [|split]].
  - unfold get_stocks. split; [now rewrite limit_nonneg | now apply limit_length].
  - intros. rewrite get_historical_prices_eq.
    split; [now rewrite limit_nonneg | now apply limit_length].
  - intros. rewrite get_sentiment_data_eq.
    split; [now rewrite limit_nonneg | now apply limit_length].
  - intros. rewrite get_trading_tips_eq.
    split; [now rewrite limit_nonneg | now apply limit_length].
Qed.

Lemma listing_pagination_witness :
  map HistoricalPrice.date (get_historical_prices january 1 20240101 20240110 2 3)
  = [Some 20240103; Some 20240104; Some 20240105].
Proof.
  destruct (listing_pagination january 2 3) as (_ & H & _); [lia | lia |].
  destruct (H 1 20240101 20240110) as [-> _].
  vm_compute. reflexivity.
Defined.

(** ** When a commit succeeds *)

Lemma insert_row_complete {A : Type} `{Model A} (now : datetime) (tbl tbl' : list A)
    (x x' : A) :
  insert_row now tbl x = inl (x', tbl') -> complete now x = true.
Proof.
  unfold insert_row, complete.
  destruct (bindable _); simpl; [|discriminate].
  destruct (not_null_ok _); simpl; [reflexivity | discriminate].
Qed.

Lemma flush_one_complete (now : datetime) (d d' : database) (e e' : entity) :
  flush_one now d e = inl (e', d') -> entity_complete now e = true.
Proof.
  destruct e as [x|x|x|x|x]; simpl;
    destruct (insert_row now _ x) as [[x' t]|err] eqn:E; simpl; try discriminate;
    intros _; exact (insert_row_complete _ _ _ _ _ E).
Qed.

(** A flush that succeeds has met no object with a NOT NULL column unset. *)
Lemma flush_complete (now : datetime) (es : list entity) :
  forall (d d' : database) (flushed : list entity),
  flush now d es = inl (flushed, d') ->
  forall e, In e es -> entity_complete now e = true.
Proof.
  induction es as [|e es IH]; simpl; intros d d' flushed Hf e0; [tauto|].
  destruct (flush_one now d e) as [[e' d1]|err] eqn:E1; simpl in Hf; [|discriminate].
  destruct (flush now d1 es) as [[fl d2]|err] eqn:E2; simpl in Hf; [|discriminate].
  intros [<-|Hin].
  - exact (flush_one_complete _ _ _ _ _ E1).
  - exact (IH _ _ _ E2 _ Hin).
Qed.

Lemma insert_row_new {A : Type} `{Model A} (now : datetime) (tbl : list A) (x : A) :
  pk (as_stored (column_defaults now x)) = None ->
  complete now x = true ->
  unique_ok tbl (as_stored (column_defaults now x)) = true ->
  exists x' tbl', insert_row now tbl x = inl (x', tbl').
Proof.
  unfold complete, insert_row. intros Hk Hc Hu.
  apply andb_true_iff in Hc as [Hb Hn]. rewrite Hb, Hn, Hu, Hk. simpl. eauto.
Qed.

Lemma flush_one_new (now : datetime) (d : database) (e : entity) :
  entity_new e = true -> entity_complete now e = true ->
  exists e' d', flush_one now d e = inl (e', d').
Proof.
  destruct e as [x|x|x|x|x]; simpl; try discriminate; intros Hn Hc;
    match goal with
    | |- context [insert_row now ?t x] =>
        destruct (insert_row_new now t x) as (x' & t' & ->);
        [ simpl;
          match goal with
          | |- ?i = None => destruct i; [discriminate | reflexivity]
          end
        | exact Hc
        | reflexivity
        | simpl; eauto ]
    end.
Qed.

(** A flush of new objects that are complete always succeeds. *)
Lemma flush_new (now : datetime) (es : list entity) :
  forall d : database,
  (forall e, In e es -> entity_new e = true /\ entity_complete now e = true) ->
  exists flushed d', flush now d es = inl (flushed, d').
Proof.
  induction es as [|e es IH]; simpl; intros d Hall; [eauto|].
  destruct (Hall e (or_introl eq_refl)) as [Hn Hc].
  destruct (flush_one_new now d e Hn Hc) as (e' & d1 & ->). simpl.
  destruct (IH d1) as (fl & d2 & ->); [auto|]. simpl. eauto.
Qed.

Lemma commit_new (now : datetime) (db : Session) :
  (forall e, In e (pending db) -> entity_new e = true /\ entity_complete now e = true) ->
  exists flushed db', commit now db = Returned flushed db'.
Proof.
  intros Hall. unfold commit.
  destruct (flush_new now (pending db) (store db) Hall) as (fl & d' & ->). eauto.
Qed.

Lemma commit_add_all_returns (now : datetime) (db : Session) (es : list entity) :
  ready now db ->
  (forall e, In e es -> entity_new e = true /\ entity_complete now e = true) ->
  exists flushed db', commit now (add_all db es) = Returned flushed db'.
Proof.
  intros Hst Hes. apply commit_new. simpl.
  intros e He. apply in_app_or in He as [He|He]; auto.
Qed.

(** One object of the batch that is not complete makes the commit raise. *)
Lemma commit_add_all_rejects (now : datetime) (db : Session) (es : list entity)
    (e : entity) :
  In e es -> entity_complete now e = false ->
  exists err, commit now (add_all db es) = Raised err (store db).
Proof.
  intros He Hc. unfold commit, add_all. simpl.
  destruct (flush now (store db) (pending db ++ es)) as [[fl d]|err] eqn:E; [|eauto].
  assert (entity_complete now e = true) as F.
  { eapply flush_complete; [exact E|]. apply in_or_app. now right. }
  congruence.
Qed.

(** ** Bulk inserts *)

Lemma Forall2_in_l {A B : Type} (R : A -> B -> Prop) (l : list A) (l' : list B) (x : A) :
  Forall2 R l l' -> In x l -> exists y, In y l' /\ R x y.
Proof.
  induction 1 as [|a b l l' Hab _ IH]; simpl; [tauto|].
  intros [<-|Hin]; [eauto|].
  destruct (IH Hin) as (y & Hy & Hxy). eauto.
Qed.

(** Commit of a batch: on success nothing is left staged, every object of
    the batch has its row in the store and no row was lost; on failure the
    store is the one before the call. *)
Lemma commit_add_all (now : datetime) (db : Session) (es : list entity) :
  match commit now (add_all db es) with
  | Returned _ db' =>
      pending db' = [] /\
      (forall e, In e es -> exists e', entity_flushed_as now e e' /\ stored (store db') e') /\
      (forall e0, stored (store db) e0 -> stored (store db') e0)
  | Raised _ d => d = store db
  end.
Proof.
  unfold commit, add_all. simpl.
  destruct (flush now (store db) (pending db ++ es)) as [[fl d]|err] eqn:E; [|reflexivity].
  simpl. apply flush_spec in E as (H2 & Hst & Hmono).
  repeat split; auto.
  intros e He.
  destruct (Forall2_in_l _ _ _ e H2) as (e' & Hin & Hfl); [apply in_or_app; now right|].
  exists e'. split; [exact Hfl|].
  rewrite Forall_forall in Hst. auto.
Qed.

Ltac bulk_insert wrap :=
  match goal with
  | |- all_or_nothing ?now _ ?db ?xs _ =>
      unfold all_or_nothing;
      let H := fresh "H" in
      pose proof (commit_add_all now db (map wrap xs)) as H;
      destruct (commit now (add_all db (map wrap xs))) as [fl db'|err d];
      [|exact H];
      let Hp := fresh "Hp" in
      let Hall := fresh "Hall" in
      let Hold := fresh "Hold" in
      destruct H as (Hp & Hall & Hold);
      split; [exact Hp|];
      split;
      [ let x := fresh "x" in
        let Hx := fresh "Hx" in
        intros x Hx;
        let e := fresh "e" in
        let Hf := fresh "Hf" in
        let Hs := fresh "Hs" in
        destruct (Hall (wrap x) (in_map wrap xs x Hx)) as (e & Hf & Hs);
        destruct e; try contradiction; eauto
      | let r := fresh "r" in
        let Hr := fresh "Hr" in
        intros r Hr; exact (Hold (wrap r) Hr) ]
  end.

Lemma add_historical_prices_bulk_spec (now : datetime) (db : Session)
    (prices : list HistoricalPrice.t) :
  all_or_nothing now historical_prices db prices
    (add_historical_prices_bulk now db prices).
Proof. unfold add_historical_prices_bulk. bulk_insert EHistoricalPrice. Qed.

Lemma add_live_prices_bulk_spec (now : datetime) (db : Session)
    (prices : list LivePrice.t) :
  all_or_nothing now live_prices db prices (add_live_prices_bulk now db prices).
Proof. unfold add_live_prices_bulk. bulk_insert ELivePrice. Qed.

Lemma add_sentiment_data_bulk_spec (now : datetime) (db : Session)
    (sentiments : list SentimentData.t) :
  all_or_nothing now sentiment_data db sentiments
    (add_sentiment_data_bulk now db sentiments).
Proof. unfold add_sentiment_data_bulk. bulk_insert ESentimentData. Qed.

Lemma add_trading_tips_bulk_spec (now : datetime) (db : Session)
    (tips : list TradingTip.t) :
  all_or_nothing now trading_tips db tips (add_trading_tips_bulk now db tips).
Proof. unfold add_trading_tips_bulk. bulk_insert ETradingTip. Qed.

Ltac bulk_returns wrap op :=
  match goal with
  | Hst : ready ?now ?db, Hxs : forall x, In x ?xs -> _ |- _ =>
      let fl := fresh "fl" in
      let db' := fresh "db'" in
      let E := fresh "E" in
      destruct (commit_add_all_returns now db (map wrap xs) Hst) as (fl & db' & E);
      [ let e := fresh "e" in
        let He := fresh "He" in
        let x := fresh "x" in
        let Hx := fresh "Hx" in
        let Hk := fresh "Hk" in
        let Hc := fresh "Hc" in
        intros e He; apply in_map_iff in He as (x & <- & Hx);
        destruct (Hxs x Hx) as [Hk Hc]; cbn in Hk;
        split; [cbn; rewrite Hk; reflexivity | exact Hc]
      | exists db'; unfold op; rewrite E; reflexivity ]
  end.

Ltac bulk_rejects wrap op :=
  match goal with
  | Hx : In ?x ?xs, Hc : complete ?now ?x = false |- exists _, _ = Raised _ (store ?db) =>
      let err := fresh "err" in
      let E := fresh "E" in
      destruct (commit_add_all_rejects now db (map wrap xs) (wrap x)) as [err E];
      [ now apply in_map | exact Hc | exists err; unfold op; now rewrite E ]
  end.

Lemma add_historical_prices_bulk_contract (now : datetime) (db : Session)
    (prices : list HistoricalPrice.t) :
  bulk_contract now historical_prices db prices
    (add_historical_prices_bulk now db prices).
Proof.
  split; [apply add_historical_prices_bulk_spec|]. split.
  - intros Hst Hxs. bulk_returns EHistoricalPrice add_historical_prices_bulk.
  - intros x Hx Hc. bulk_rejects EHistoricalPrice add_historical_prices_bulk.
Qed.

Lemma add_live_prices_bulk_contract (now : datetime) (db : Session)
    (prices : list LivePrice.t) :
  bulk_contract now live_prices db prices (add_live_prices_bulk now db prices).
Proof.
  split; [apply add_live_prices_bulk_spec|]. split.
  - intros Hst Hxs. bulk_returns ELivePrice add_live_prices_bulk.
  - intros x Hx Hc. bulk_rejects ELivePrice add_live_prices_bulk.
Qed.

Lemma add_sentiment_data_bulk_contract (now : datetime) (db : Session)
    (sentiments : list SentimentData.t) :
  bulk_contract now sentiment_data db sentiments
    (add_sentiment_data_bulk now db sentiments).
Proof.
  split; [apply add_sentiment_data_bulk_spec|]. split.
  - intros Hst Hxs. bulk_returns ESentimentData add_sentiment_data_bulk.
  - intros x Hx Hc. bulk_rejects ESentimentData add_sentiment_data_bulk.
Qed.

Lemma add_trading_tips_bulk_contract (now : datetime) (db : Session)
    (tips : list TradingTip.t) :
  bulk_contract now trading_tips db tips (add_trading_tips_bulk now db tips).
Proof.
  split; [apply add_trading_tips_bulk_spec|]. split.
  - intros Hst Hxs. bulk_returns ETradingTip add_trading_tips_bulk.
  - intros x Hx Hc. bulk_rejects ETradingTip add_trading_tips_bulk.
Qed.

(** C7: each bulk insert commits its whole list in one transaction, all or
    nothing. It returns whenever nothing staged can fail and every record
    of the list is new and complete, and when it returns every record of
    the list has its row in the store, the rows already stored are kept
    and nothing is left staged. It raises when a record of the list is not
    complete, and whenever it raises the store is unchanged: none of the
    list is persisted. *)
Theorem bulk_insert_all_or_nothing (now : datetime) (db : Session) :
  (forall prices,
     bulk_contract now historical_prices db prices
       (add_historical_prices_bulk now db prices)) /\
  (forall prices,
     bulk_contract now live_prices db prices (add_live_prices_bulk now db prices)) /\
  (forall sentiments,
     bulk_contract now sentiment_data db sentiments
       (add_sentiment_data_bulk now db sentiments)) /\
  (forall tips,
     bulk_contract now trading_tips db tips (add_trading_tips_bulk now db tips)).
Proof.
  split; [|split; [|split]]; intros.
  - apply add_historical_prices_bulk_contract.
  - apply add_live_prices_bulk_contract.
  - apply add_sentiment_data_bulk_contract.
  - apply add_trading_tips_bulk_contract.
Qed.

Lemma bulk_insert_all_or_nothing_witness :
  exists db',
    add_live_prices_bulk 0 three_ticks
      [tick 1 500 5%float; LivePrice.mk None (Some 2) None (Some 1%float) (Some 3)]
    = Returned tt db' /\
    exists err,
      add_live_prices_bulk 0 three_ticks
        [tick 1 500 5%float; LivePrice.mk None (Some 2) None (Some nan) (Some 3)]
      = Raised err (store three_ticks).
Proof.
  destruct (bulk_insert_all_or_nothing 0 three_ticks) as (_ & H & _).
  destruct (H [tick 1 500 5%float; LivePrice.mk None (Some 2) None (Some 1%float) (Some 3)])
    as (_ & Hret & _).
  destruct Hret as [db' E].
  - intros e He. vm_compute in He. contradiction.
  - intros x [<-|[<-|[]]]; split; reflexivity.
  - exists db'. split; [exact E|].
    destruct (H [tick 1 500 5%float; LivePrice.mk None (Some 2) None (Some nan) (Some 3)])
      as (_ & _ & Hrej).
    apply (Hrej (LivePrice.mk None (Some 2) None (Some nan) (Some 3))).
    + right. now left.
    + reflexivity.
Defined.

(** A batch whose second bar lacks its volume: the commit raises and none
    of the three bars is persisted. *)
Lemma bulk_insert_rolled_back :
  add_historical_prices_bulk 0 january
    [bar 20240111; bar_without_volume 20240112; bar 20240113]
  = Raised (IntegrityError NotNullViolation) (store january).
Proof. reflexivity. Qed.

Ltac as_given :=
  unfold flushed_as, kept; simpl;
  match goal with
  | |- context [match ?i with Some _ => _ | None => _ end -> _] =>
      let Ei := fresh "Ei" in
      destruct i eqn:Ei;
      [ intros -> | let k := fresh "k" in intros [k ->] ];
      simpl; rewrite ?Ei; repeat split; try discriminate; auto;
      let v := fresh "v" in
      let E := fresh "E" in
      intros v E; rewrite E; reflexivity
  end.

Lemma flushed_historical_price (now : datetime) (x x' : HistoricalPrice.t) :
  flushed_as now x x' -> historical_price_as_given x x'.
Proof. unfold historical_price_as_given. as_given. Qed.

Lemma flushed_live_price (now : datetime) (x x' : LivePrice.t) :
  flushed_as now x x' -> live_price_as_given x x'.
Proof. unfold live_price_as_given. as_given. Qed.

Lemma flushed_sentiment (now : datetime) (x x' : SentimentData.t) :
  flushed_as now x x' -> sentiment_as_given x x'.
Proof. unfold sentiment_as_given. as_given. Qed.

Lemma flushed_tip (now : datetime) (x x' : TradingTip.t) :
  flushed_as now x x' -> tip_as_given x x'.
Proof. unfold tip_as_given. as_given. Qed.

(** A symbol that is not its own upper-case form is the upper-case form
    of no string. *)
Lemma not_upper_of (s f : string) : upper s <> s -> s <> upper f.
Proof. intros Hs ->. apply Hs. apply upper_idem. Qed.

Ltac rows_as_given spec flushed :=
  match goal with
  | E : _ = Returned tt ?db' |- forall x, In x ?xs -> _ =>
      let B := fresh "B" in
      let Hall := fresh "Hall" in
      let x := fresh "x" in
      let Hx := fresh "Hx" in
      let x' := fresh "x'" in
      let Hf := fresh "Hf" in
      let Hin := fresh "Hin" in
      pose proof spec as B; rewrite E in B; destruct B as (_ & Hall & _);
      intros x Hx; destruct (Hall x Hx) as (x' & Hf & Hin);
      exists x'; split; [exact Hin | exact (flushed _ _ _ Hf)]
  end.

(** What is stored when a bulk insert returns, for each of the four. *)
Lemma add_sentiment_data_bulk_stored (now : datetime) (db db' : Session)
    (sentiments : list SentimentData.t) :
  add_sentiment_data_bulk now db sentiments = Returned tt db' ->
  forall x, In x sentiments ->
    exists x', In x' (sentiment_data (store db')) /\ sentiment_as_given x x'.
Proof.
  intros E. rows_as_given (add_sentiment_data_bulk_spec now db sentiments) flushed_sentiment.
Qed.

Lemma add_trading_tips_bulk_stored (now : datetime) (db db' : Session)
    (tips : list TradingTip.t) :
  add_trading_tips_bulk now db tips = Returned tt db' ->
  forall x, In x tips -> exists x', In x' (trading_tips (store db')) /\ tip_as_given x x'.
Proof.
  intros E. rows_as_given (add_trading_tips_bulk_spec now db tips) flushed_tip.
Qed.

Lemma add_historical_prices_bulk_stored (now : datetime) (db db' : Session)
    (prices : list HistoricalPrice.t) :
  add_historical_prices_bulk now db prices = Returned tt db' ->
  forall x, In x prices ->
    exists x', In x' (historical_prices (store db')) /\ historical_price_as_given x x'.
Proof.
  intros E.
  rows_as_given (add_historical_prices_bulk_spec now db prices) flushed_historical_price.
Qed.

Lemma add_live_prices_bulk_stored (now : datetime) (db db' : Session)
    (prices : list LivePrice.t) :
  add_live_prices_bulk now db prices = Returned tt db' ->
  forall x, In x prices -> exists x', In x' (live_prices (store db')) /\ live_price_as_given x x'.
Proof.
  intros E. rows_as_given (add_live_prices_bulk_spec now db prices) flushed_live_price.
Qed.

(** C10, as stated, fails on the float attributes: the record is not
    persisted exactly as given. A sentiment record whose score is the
    negative zero reaches the store with the score zero. *)
Lemma negative_zero_not_as_given :
  exists db' x',
    add_sentiment_data_bulk 0 fresh_session [negative_zero_opinion] = Returned tt db' /\
    sentiment_data (store db') = [x'] /\
    SentimentData.stock_symbol x' = SentimentData.stock_symbol negative_zero_opinion /\
    SentimentData.sentiment_score x'
    <> SentimentData.sentiment_score negative_zero_opinion.
Proof.
  eexists _, _. split; [vm_compute; reflexivity|].
  split; [reflexivity|]. split; [reflexivity|].
  simpl. intros H. apply (f_equal reciprocal_negative) in H.
  vm_compute in H. discriminate.
Qed.

(** C10, amended: the bulk inserts do not turn a symbol to upper case. A
    bulk insert of new, complete records, on a session where nothing
    staged can fail, returns, and whenever a bulk insert returns the row
    stored for each record carries the record's [stock_symbol] and its
    other text, integer and enumeration attributes unchanged, its float
    attributes as the engine stores them, the key and the timestamp as
    given when they were set. A row whose symbol is not in upper case is
    returned by no call of [get_sentiment_data] or [get_trading_tips] that
    filters by symbol, since the filter is compared in upper case. *)
Theorem bulk_insert_keeps_symbol (now : datetime) (db : Session) :
  (forall sentiments,
     ready now db ->
     (forall x, In x sentiments -> SentimentData.id x = None /\ complete now x = true) ->
     exists db',
       add_sentiment_data_bulk now db sentiments = Returned tt db' /\
       forall x, In x sentiments ->
         exists x', In x' (sentiment_data (store db')) /\ sentiment_as_given x x') /\
  (forall tips,
     ready now db ->
     (forall x, In x tips -> TradingTip.id x = None /\ complete now x = true) ->
     exists db',
       add_trading_tips_bulk now db tips = Returned tt db' /\
       forall x, In x tips ->
         exists x', In x' (trading_tips (store db')) /\ tip_as_given x x') /\
  (forall sentiments db' x,
     add_sentiment_data_bulk now db sentiments = Returned tt db' ->
     In x sentiments ->
     exists x', In x' (sentiment_data (store db')) /\ sentiment_as_given x x') /\
  (forall tips db' x,
     add_trading_tips_bulk now db tips = Returned tt db' ->
     In x tips ->
     exists x', In x' (trading_tips (store db')) /\ tip_as_given x x') /\
  (forall prices db' x,
     add_historical_prices_bulk now db prices = Returned tt db' ->
     In x prices ->
     exists x', In x' (historical_prices (store db')) /\ historical_price_as_given x x') /\
  (forall prices db' x,
     add_live_prices_bulk now db prices = Returned tt db' ->
     In x prices ->
     exists x', In x' (live_prices (store db')) /\ live_price_as_given x x') /\
  (forall r s f start_date end_date lim,
     SentimentData.stock_symbol r = Some s -> upper s <> s -> f <> "" ->
     ~ In r (get_sentiment_data db (Some f) start_date end_date lim)) /\
  (forall r s f lim page,
     TradingTip.stock_symbol r = Some s -> upper s <> s -> f <> "" ->
     ~ In r (get_trading_tips db (Some f) lim page)).
Proof.
  split; [|split; [|split; [|split; [|split; [|split; [|split]]]]]].
  - intros xs Hst Hxs.
    destruct (add_sentiment_data_bulk_contract now db xs) as (_ & Hret & _).
    destruct (Hret Hst Hxs) as [db' E]. exists db'. split; [exact E|].
    exact (add_sentiment_data_bulk_stored _ _ _ _ E).
  - intros xs Hst Hxs.
    destruct (add_trading_tips_bulk_contract now db xs) as (_ & Hret & _).
    destruct (Hret Hst Hxs) as [db' E]. exists db'. split; [exact E|].
    exact (add_trading_tips_bulk_stored _ _ _ _ E).
  - intros xs db' x E. exact (add_sentiment_data_bulk_stored _ _ _ _ E x).
  - intros xs db' x E. exact (add_trading_tips_bulk_stored _ _ _ _ E x).
  - intros xs db' x E. exact (add_historical_prices_bulk_stored _ _ _ _ E x).
  - intros xs db' x E. exact (add_live_prices_bulk_stored _ _ _ _ E x).
  - intros r s f a b lim Hr Hs Hf Hin.
    rewrite get_sentiment_data_eq in Hin. apply in_limit in Hin.
    unfold sentiment_ordered in Hin.
    apply (Permutation_in _ (order_by_desc_perm _ _)) in Hin.
    apply filter_In in Hin as [_ Hsel]. unfold sentiment_selected in Hsel.
    rewrite !andb_true_iff in Hsel. destruct Hsel as [[Hsym _] _].
    apply symbol_selected_Some in Hsym; [|exact Hf].
    rewrite Hr in Hsym. injection Hsym as Hsym. exact (not_upper_of s f Hs Hsym).
  - intros r s f lim page Hr Hs Hf Hin.
    rewrite get_trading_tips_eq in Hin. apply in_limit, in_offset in Hin.
    unfold trading_tips_ordered in Hin.
    apply (Permutation_in _ (order_by_desc_perm _ _)) in Hin.
    apply filter_In in Hin as [_ Hsym]. unfold tip_selected in Hsym.
    apply symbol_selected_Some in Hsym; [|exact Hf].
    rewrite Hr in Hsym. injection Hsym as Hsym. exact (not_upper_of s f Hs Hsym).
Qed.

Lemma bulk_insert_keeps_symbol_witness :
  exists db' x',
    add_sentiment_data_bulk 0 fresh_session [opinion "infy" 1] = Returned tt db' /\
    In x' (sentiment_data (store db')) /\
    SentimentData.stock_symbol x' = Some "infy" /\
    ~ In x' (get_sentiment_data db' (Some "infy") None None 100) /\
    ~ In x' (get_sentiment_data db' (Some "INFY") None None 100).
Proof.
  destruct (bulk_insert_keeps_symbol 0 fresh_session) as (Hreach & _).
  destruct (Hreach [opinion "infy" 1]) as (db' & E & Hrows).
  - intros e [].
  - intros x [<-|[]]. split; reflexivity.
  - destruct (Hrows (opinion "infy" 1)) as (x' & Hin & Hg); [now left|].
    assert (Hsym : SentimentData.stock_symbol x' = Some "infy").
    { destruct Hg as (_ & _ & _ & _ & _ & Hs). exact Hs. }
    exists db', x'. split; [exact E|]. split; [exact Hin|]. split; [exact Hsym|].
    destruct (bulk_insert_keeps_symbol 0 db')
      as (_ & _ & _ & _ & _ & _ & Hnot & _).
    split; eapply Hnot; eauto; discriminate.
Defined.

(** A lower-case symbol reaches the store through the bulk path, and the
    query for that symbol, in any casing, does not return the row. *)
Lemma lowercase_symbol_not_matched :
  map SentimentData.stock_symbol (sentiment_data (store lowercase_opinion))
  = [Some "infy"; Some "INFY"] /\
  map SentimentData.id (get_sentiment_data lowercase_opinion (Some "infy") None None 100)
  = [Some 2] /\
  map SentimentData.id (get_sentiment_data lowercase_opinion (Some "INFY") None None 100)
  = [Some 2].
Proof. repeat split; reflexivity. Qed.

(** * Further properties of the data-access functions *)

(** ** Lookups *)

Lemma first_filter_spec {A : Type} (p : A -> bool) (l : list A) :
  match first (filter p l) with
  | Some r => In r l /\ p r = true
  | None => forall r, In r l -> p r = false
  end.
Proof.
  induction l as [|a l IH]; simpl; [tauto|].
  destruct (p a) eqn:Ha; simpl.
  - auto.
  - destruct (first (filter p l)) as [r|].
    + tauto.
    + intros r [<-|Hr]; auto.
Qed.

(** With pairwise distinct values of [f], and a filter that determines the
    value of [f], the first match is the only one. *)
Lemma first_filter_unique {A B : Type} (f : A -> B) (p : A -> bool) (l : list A) (r : A) :
  NoDup (map f l) ->
  (forall a b, p a = true -> p b = true -> f a = f b) ->
  In r l -> p r = true -> first (filter p l) = Some r.
Proof.
  intros Hnd Hp. induction l as [|a l IH]; simpl; [tauto|].
  inversion Hnd as [|? ? Hnotin Hnd']; subst.
  intros [->|Hr] Hpr.
  - now rewrite Hpr.
  - destruct (p a) eqn:Ha; simpl; [|auto].
    exfalso. apply Hnotin. rewrite (Hp a r Ha Hpr). now apply in_map.
Qed.

Lemma first_filter_iff {A B : Type} (f : A -> B) (p : A -> bool) (l : list A) (r : A) :
  NoDup (map f l) ->
  (forall a b, p a = true -> p b = true -> f a = f b) ->
  (first (filter p l) = Some r <-> In r l /\ p r = true).
Proof.
  intros Hnd Hp. split.
  - intros E. pose proof (first_filter_spec p l) as S. now rewrite E in S.
  - intros [Hin Hpr]. eapply first_filter_unique; eauto.
Qed.

Lemma first_filter_none {A : Type} (p : A -> bool) (l : list A) :
  first (filter p l) = None <-> forall r, In r l -> p r = false.
Proof.
  split.
  - intros E. pose proof (first_filter_spec p l) as S. now rewrite E in S.
  - intros Hall. pose proof (first_filter_spec p l) as S.
    destruct (first (filter p l)) as [r|]; [|reflexivity].
    destruct S as [Hin Hp]. rewrite (Hall r Hin) in Hp. discriminate.
Qed.

Lemma has_key_same {A : Type} `{Model A} (i : Z) (a b : A) :
  col_eq Z.eqb (pk a) i = true -> col_eq Z.eqb (pk b) i = true -> pk a = pk b.
Proof. rewrite !col_eq_Z. congruence. Qed.

(** X1: in a table whose keys are pairwise distinct, [get_by_id] returns
    a row exactly when that row is stored under the key, and returns
    [None] exactly when no stored row has the key. *)
Theorem get_by_id_lookup {A : Type} `{Mapped A} (db : Session) (i : Z) :
  NoDup (map pk (table (store db))) ->
  (forall r, get_by_id db i = Some r <-> In r (table (store db)) /\ pk r = Some i) /\
  (get_by_id db i = None <-> forall r, In r (table (store db)) -> pk r <> Some i).
Proof.
  intros Hnd. unfold get_by_id. split.
  - intros r. rewrite (first_filter_iff pk _ _ _ Hnd (has_key_same i)).
    now rewrite col_eq_Z.
  - rewrite first_filter_none. split; intros Hall r Hr.
    + intros E. apply col_eq_Z in E. rewrite (Hall r Hr) in E. discriminate.
    + destruct (col_eq Z.eqb (pk r) i) eqn:E; [|reflexivity].
      apply col_eq_Z in E. now apply Hall in E.
Qed.

Ltac distinct_keys :=
  vm_compute; repeat (constructor; [simpl; intuition discriminate|]); constructor.

Lemma get_by_id_lookup_witness :
  get_by_id three_ticks 2
  = Some (LivePrice.mk (Some 2) (Some 1) (Some 300) (Some 3%float) (Some 10)).
Proof.
  assert (Hnd : NoDup (map pk (table (A := LivePrice.t) (store three_ticks))))
    by distinct_keys.
  destruct (get_by_id_lookup (A := LivePrice.t) three_ticks 2 Hnd) as [Hsome _].
  apply Hsome. split; [vm_compute; auto | reflexivity].
Defined.

Lemma insert_row_error {A : Type} `{Model A} (now : datetime) (tbl : list A) (x : A)
    (err : error) :
  insert_row now tbl x = inr err -> err <> InvalidRequestError.
Proof.
  unfold insert_row.
  destruct (bindable _); simpl; [|intros [= <-]; discriminate].
  destruct (not_null_ok _); simpl; [|intros [= <-]; discriminate].
  destruct (unique_ok _ _); simpl; [|intros [= <-]; discriminate].
  destruct (pk _); [|discriminate].
  destruct (existsb _ _); [intros [= <-]; discriminate | discriminate].
Qed.

Lemma flush_one_error (now : datetime) (d : database) (e : entity) (err : error) :
  flush_one now d e = inr err -> err <> InvalidRequestError.
Proof.
  destruct e as [x|x|x|x|x]; simpl;
    destruct (insert_row now _ x) as [[x' t]|err'] eqn:E; simpl; try discriminate;
    intros [= <-]; exact (insert_row_error _ _ _ _ E).
Qed.

(** A flush raises what the engine raises on an insert (an integrity or an
    overflow error), never the session's own [InvalidRequestError]. *)
Lemma flush_error (now : datetime) (es : list entity) :
  forall (d : database) (err : error),
  flush now d es = inr err -> err <> InvalidRequestError.
Proof.
  induction es as [|e es IH]; simpl; intros d err; [discriminate|].
  destruct (flush_one now d e) as [[e' d1]|err'] eqn:E1; simpl.
  - destruct (flush now d1 es) as [[fl d2]|err''] eqn:E2; simpl; [discriminate|].
    intros [= <-]. eauto.
  - intros [= <-]. exact (flush_one_error _ _ _ _ E1).
Qed.

Lemma stored_place_stock (d : database) (i : Z) (st : Stock.t) (e : entity) :
  stored d e ->
  stored (mk_database (place i st (stocks d)) (historical_prices d) (live_prices d)
            (sentiment_data d) (trading_tips d)) e.
Proof. destruct e; simpl; auto. intros Hx. apply in_place. auto. Qed.

(** X2: the stock [create_stock] returns carries a key that no stored
    stock had, and [get_stock] with that key returns that very record. *)
Theorem create_stock_get_stock (now : datetime) (db db' : Session)
    (symbol name : string) (exchange : Exchange) (st : Stock.t) :
  create_stock now db symbol name exchange = Returned st db' ->
  exists i, Stock.id st = Some i /\ get_stock db i = None /\ get_stock db' i = Some st.
Proof.
  intros Hc.
  destruct (create_stock_returned _ _ _ _ _ _ _ Hc) as (fl & d & i & Hf & _ & Hk & Hst & ->).
  exists i. split; [now rewrite Hst|]. split.
  - unfold get_stock. apply first_filter_none. intros r Hr.
    apply flush_spec in Hf as (_ & _ & Hmono).
    specialize (Hmono (EStock r) Hr). simpl in Hmono.
    destruct (col_eq Z.eqb (Stock.id r) i) eqn:E; [|reflexivity].
    assert (existsb (has_pk i) (stocks d) = true) as F
      by (apply existsb_exists; exists r; auto).
    congruence.
  - unfold get_stock. simpl.
    change (fun r => col_eq Z.eqb (Stock.id r) i) with (has_pk (A := Stock.t) i).
    rewrite filter_place_only; auto.
    rewrite Hst. unfold has_pk. simpl. apply Z.eqb_refl.
Qed.

Lemma create_stock_get_stock_witness :
  exists st db' i,
    create_stock 0 two_stocks "wipro" "Wipro" NSE = Returned st db' /\
    Stock.id st = Some i /\ get_stock two_stocks i = None /\ get_stock db' i = Some st.
Proof.
  destruct (create_stock 0 two_stocks "wipro" "Wipro" NSE) as [st db'|e d] eqn:E.
  - destruct (create_stock_get_stock _ _ _ _ _ _ _ E) as (i & H1 & H2 & H3).
    exists st, db', i. auto.
  - vm_compute in E. discriminate.
Defined.



(** X4: whenever [create_stock] raises, the persistent store is the one
    before the call and the exception is one the commit raised, never the
    [InvalidRequestError] of a failed refresh: once the commit has
    succeeded, [create_stock] returns. *)
Theorem create_stock_raises (now : datetime) (db : Session) (symbol name : string)
    (exchange : Exchange) (err : error) (d : database) :
  create_stock now db symbol name exchange = Raised err d ->
  d = store db /\ err <> InvalidRequestError.
Proof.
  destruct (flush now (store db) (pending db)) as [[fl d1]|err1] eqn:Hf.
  - destruct (existsb (symbol_is symbol) (stocks d1)) eqn:Hu.
    + unfold create_stock, commit, add. simpl. rewrite flush_app, Hf. simpl.
      unfold insert_row; simpl. fold (symbol_is symbol). rewrite Hu. simpl.
      intros [= <- <-]. split; [reflexivity | discriminate].
    + destruct (create_stock_returns now db symbol name exchange _ _ Hf Hu)
        as (st & db' & ->).
      discriminate.
  - unfold create_stock, commit, add. simpl. rewrite flush_app, Hf. simpl.
    intros [= <- <-]. split; [reflexivity|]. eapply flush_error; eauto.
Qed.

Lemma create_stock_raises_witness :
  let db := add january (EHistoricalPrice (bar_without_volume 20240111)) in
  create_stock 0 db "wipro" "Wipro" NSE
  = Raised (IntegrityError NotNullViolation) (store january) /\
  store january = store db /\
  IntegrityError NotNullViolation <> InvalidRequestError.
Proof.
  intros db.
  assert (H : create_stock 0 db "wipro" "Wipro" NSE
              = Raised (IntegrityError NotNullViolation) (store january))
    by (vm_compute; reflexivity).
  split; [exact H|].
  exact (create_stock_raises 0 db "wipro" "Wipro" NSE _ _ H).
Defined.




(** X6: a successful [create_stock] commits everything that was staged
    on the session before the call, and removes or alters no stored row
    of any table. *)
Theorem create_stock_commits_staged (now : datetime) (db db' : Session)
    (symbol name : string) (exchange : Exchange) (st : Stock.t) :
  create_stock now db symbol name exchange = Returned st db' ->
  (forall e, In e (pending db) ->
     exists e', entity_flushed_as now e e' /\ stored (store db') e') /\
  (forall e, stored (store db) e -> stored (store db') e).
Proof.
  intros Hc.
  destruct (create_stock_returned _ _ _ _ _ _ _ Hc) as (fl & d & i & Hf & _ & _ & _ & ->).
  apply flush_spec in Hf as (H2 & Hst & Hmono). simpl. split.
  - intros e He.
    destruct (Forall2_in_l _ _ _ e H2 He) as (e' & Hin & Hfl).
    exists e'. split; [exact Hfl|].
    apply stored_place_stock. rewrite Forall_forall in Hst. auto.
  - intros e He. apply stored_place_stock. auto.
Qed.

Lemma create_stock_commits_staged_witness :
  let staged := create_live_price 7 january 1 101%float 10 None in
  exists st db' e',
    create_stock 7 (snd staged) "infy" "Infosys" NSE = Returned st db' /\
    entity_flushed_as 7 (ELivePrice (fst staged)) e' /\ stored (store db') e'.
Proof.
  intros staged.
  destruct (create_stock 7 (snd staged) "infy" "Infosys" NSE) as [st db'|e d] eqn:E.
  - destruct (create_stock_commits_staged _ _ _ _ _ _ _ E) as [Hstaged _].
    destruct (Hstaged (ELivePrice (fst staged))) as (e' & Hf & Hs).
    + apply in_or_app. right. left. reflexivity.
    + exists st, db', e'. auto.
  - vm_compute in E. discriminate.
Defined.

(** ** The schema invariant *)

#[export] Instance Stock_ModelLaws : ModelLaws Stock.t.
Proof. split; reflexivity. Qed.

#[export] Instance HistoricalPrice_ModelLaws : ModelLaws HistoricalPrice.t.
Proof. split; reflexivity. Qed.

#[export] Instance LivePrice_ModelLaws : ModelLaws LivePrice.t.
Proof. split; reflexivity. Qed.

#[export] Instance SentimentData_ModelLaws : ModelLaws SentimentData.t.
Proof. split; reflexivity. Qed.

#[export] Instance TradingTip_ModelLaws : ModelLaws TradingTip.t.
Proof. split; reflexivity. Qed.

Section TableInvariant.
Context {A : Type} `{ModelLaws A}.

Lemma key_not_in_use (i : Z) (tbl : list A) :
  existsb (has_pk i) tbl = false -> ~ In (Some i) (map pk tbl).
Proof.
  intros Hk Hin. apply in_map_iff in Hin as (r & Hr & Hin).
  assert (existsb (has_pk i) tbl = true) as F.
  { apply existsb_exists. exists r. split; [exact Hin | now apply col_eq_Z]. }
  congruence.
Qed.

Lemma place_table_ok (i : Z) (x : A) (tbl : list A) :
  table_ok tbl -> pk x = Some i -> not_null_ok x = true ->
  existsb (has_pk i) tbl = false -> table_ok (place i x tbl).
Proof.
  intros [Hrows Hnd] Hpk Hnn Hk. split.
  - apply Forall_forall. intros r Hr. apply in_place in Hr as [->|Hr].
    + split; [now rewrite Hpk | exact Hnn].
    + rewrite Forall_forall in Hrows. auto.
  - eapply Permutation_NoDup.
    + symmetry. apply Permutation_map. apply place_perm.
    + simpl. constructor; [|exact Hnd]. rewrite Hpk. now apply key_not_in_use.
Qed.

(** An insert keeps the rows well formed and the keys distinct. *)
Lemma insert_row_table_ok (now : datetime) (tbl tbl' : list A) (x x' : A) :
  table_ok tbl -> insert_row now tbl x = inl (x', tbl') -> table_ok tbl'.
Proof.
  intros Hok. unfold insert_row.
  destruct (bindable _); simpl; [|discriminate].
  destruct (not_null_ok (as_stored (column_defaults now x))) eqn:Hnn; simpl;
    [|discriminate].
  destruct (unique_ok _ _); simpl; [|discriminate].
  destruct (pk (as_stored (column_defaults now x))) as [i|] eqn:Hpk.
  - destruct (existsb (has_pk i) tbl) eqn:Hk; [discriminate|].
    intros [= <- <-]. now apply place_table_ok.
  - intros [= <- <-]. apply place_table_ok; auto.
    + apply pk_set_pk.
    + now rewrite not_null_set_pk.
    + apply next_pk_fresh.
Qed.
End TableInvariant.

Lemma flush_one_schema_ok (now : datetime) (d d' : database) (e e' : entity) :
  schema_ok d -> flush_one now d e = inl (e', d') -> schema_ok d'.
Proof.
  intros Hok Hf.
  pose proof Hok as (Hs & Hh & Hl & Hse & Ht & Hu).
  assert (Hu' : symbols_unique d') by (eapply flush_one_symbols_unique; eauto).
  destruct e as [x|x|x|x|x]; simpl in Hf;
    destruct (insert_row now _ x) as [[x' t]|err] eqn:E; simpl in Hf; try discriminate;
    injection Hf as <- <-;
    apply insert_row_table_ok in E; auto;
    unfold schema_ok; simpl; tauto.
Qed.

Lemma flush_schema_ok (now : datetime) (es : list entity) :
  forall (d d' : database) (flushed : list entity),
  schema_ok d -> flush now d es = inl (flushed, d') -> schema_ok d'.
Proof.
  induction es as [|e es IH]; simpl; intros d d' flushed Hd.
  - now intros [= <- <-].
  - destruct (flush_one now d e) as [[e' d1]|err] eqn:E1; simpl; [|discriminate].
    destruct (flush now d1 es) as [[fl d2]|err] eqn:E2; simpl; [|discriminate].
    intros [= <- <-]. eauto using flush_one_schema_ok.
Qed.

Lemma commit_schema_ok (now : datetime) (db : Session) :
  schema_ok (store db) -> schema_ok (store (session_after (commit now db))).
Proof.
  intros Hok. unfold commit.
  destruct (flush now (store db) (pending db)) as [[fl d]|err] eqn:E; simpl; auto.
  eapply flush_schema_ok; eauto.
Qed.

Lemma schema_ok_empty : schema_ok empty_database.
Proof.
  unfold schema_ok, table_ok, symbols_unique. simpl.
  repeat split; constructor.
Qed.

(** X7: every function of the module that commits keeps the constraints
    of the schema: whether it returns or raises, in the store it leaves
    every row has its key and its NOT NULL columns set, the keys of each
    table are pairwise distinct and so are the stock symbols. *)
Theorem schema_invariant (now : datetime) (db : Session) :
  schema_ok (store db) ->
  (forall symbol name exchange,
     schema_ok (store (session_after (create_stock now db symbol name exchange)))) /\
  (forall obj, schema_ok (store (session_after (create_entity now db obj)))) /\
  (forall prices,
     schema_ok (store (session_after (add_historical_prices_bulk now db prices)))) /\
  (forall prices,
     schema_ok (store (session_after (add_live_prices_bulk now db prices)))) /\
  (forall sentiments,
     schema_ok (store (session_after (add_sentiment_data_bulk now db sentiments)))) /\
  (forall tips,
     schema_ok (store (session_after (add_trading_tips_bulk now db tips)))).
Proof.
  intros Hok.
  assert (Hc : forall es, schema_ok (store (session_after (commit now (add_all db es)))))
    by (intros es; apply commit_schema_ok; exact Hok).
  split; [|split; [|split; [|split; [|split]]]].
  - intros symbol name exchange. unfold create_stock.
    pose proof (commit_schema_ok now (add db (EStock
      (Stock.mk None (Some (upper symbol)) (Some name) (Some exchange)))) Hok) as Hs.
    destruct (commit now _) as [fl db1|err d]; simpl in *; [|exact Hs].
    destruct (refresh_stock db1 _); simpl; exact Hs.
  - intros obj. unfold create_entity.
    pose proof (commit_schema_ok now (add db obj) Hok) as Hs.
    destruct (commit now _) as [fl db1|err d]; simpl in *; [|exact Hs].
    destruct (refresh db1 _); simpl; exact Hs.
  - intros xs. unfold add_historical_prices_bulk. specialize (Hc (map EHistoricalPrice xs)).
    destruct (commit now _); exact Hc.
  - intros xs. unfold add_live_prices_bulk. specialize (Hc (map ELivePrice xs)).
    destruct (commit now _); exact Hc.
  - intros xs. unfold add_sentiment_data_bulk. specialize (Hc (map ESentimentData xs)).
    destruct (commit now _); exact Hc.
  - intros xs. unfold add_trading_tips_bulk. specialize (Hc (map ETradingTip xs)).
    destruct (commit now _); exact Hc.
Qed.

Lemma schema_invariant_witness :
  schema_ok (store (session_after (create_stock 0 fresh_session "infy" "Infosys" NSE))).
Proof.
  apply (schema_invariant 0 fresh_session schema_ok_empty).
Defined.

(** ** Pages *)

Lemma firstn_then (A : Type) (a b : nat) (l : list A) :
  (firstn a l ++ firstn b (skipn a l) = firstn (a + b) l)%list.
Proof.
  revert l; induction a as [|a IH]; intros l; simpl; [reflexivity|].
  destruct l as [|x l]; simpl.
  - now rewrite firstn_nil.
  - now rewrite IH.
Qed.

(** Reading [a] records past an offset and then [b] records past them is
    reading [a + b] records past the offset. *)
Lemma limit_offset_app {A : Type} (k a b : Z) (l : list A) :
  0 <= k -> 0 <= a -> 0 <= b ->
  (limit a (offset k l) ++ limit b (offset (k + a) l) = limit (a + b) (offset k l))%list.
Proof.
  intros Hk Ha Hb. rewrite !limit_nonneg by lia. unfold offset.
  replace (Z.to_nat (k + a)) with (Z.to_nat a + Z.to_nat k)%nat by lia.
  rewrite <- skipn_skipn.
  replace (Z.to_nat (a + b)) with (Z.to_nat a + Z.to_nat b)%nat by lia.
  apply firstn_then.
Qed.

Lemma limit_nil {A : Type} (n : Z) : limit n (@nil A) = [].
Proof. unfold limit. destruct (n <? 0); [reflexivity | apply firstn_nil]. Qed.

Lemma offset_past_end {A : Type} (k : Z) (l : list A) :
  Z.of_nat (List.length l) <= k -> offset k l = [].
Proof. intros Hk. unfold offset. apply skipn_all2. lia. Qed.

(** X8: for offsets and limits that are not negative, two consecutive
    windows of [get_stocks], [get_all] or [get_historical_prices] make up
    the one window of their joint size, and a window that starts at or
    past the end of the result is empty: paging by offset loses no record
    and repeats none. *)
Theorem windows_compose (db : Session) (k a b : Z) :
  0 <= k -> 0 <= a -> 0 <= b ->
  ((get_stocks db k a ++ get_stocks db (k + a) b)%list = get_stocks db k (a + b) /\
   (Z.of_nat (List.length (stocks (store db))) <= k -> get_stocks db k a = [])) /\
  (forall (A : Type) (M : Model A) (T : @Mapped A M),
     (get_all (A := A) db k a ++ get_all db (k + a) b)%list = get_all db k (a + b) /\
     (Z.of_nat (List.length (table (A := A) (store db))) <= k ->
      get_all (A := A) db k a = [])) /\
  (forall stock_id start_date end_date,
     (get_historical_prices db stock_id start_date end_date k a
      ++ get_historical_prices db stock_id start_date end_date (k + a) b)%list
     = get_historical_prices db stock_id start_date end_date k (a + b) /\
     (Z.of_nat (List.length (historical_prices_ordered db stock_id start_date end_date))
      <= k ->
      get_historical_prices db stock_id start_date end_date k a = [])).
Proof.
  intros Hk Ha Hb. split; [|split].
  - unfold get_stocks. split; [now apply limit_offset_app|].
    intros Hend. rewrite offset_past_end by assumption. apply limit_nil.
  - intros A M T. unfold get_all. split; [now apply limit_offset_app|].
    intros Hend. rewrite offset_past_end by assumption. apply limit_nil.
  - intros stock_id start_date end_date. rewrite !get_historical_prices_eq.
    split; [now apply limit_offset_app|].
    intros Hend. rewrite offset_past_end by assumption. apply limit_nil.
Qed.

Lemma windows_compose_witness :
  (get_historical_prices january 1 20240101 20240110 2 3
   ++ get_historical_prices january 1 20240101 20240110 (2 + 3) 4)%list
  = get_historical_prices january 1 20240101 20240110 2 (3 + 4).
Proof.
  destruct (windows_compose january 2 3 4) as (_ & _ & H); [lia | lia | lia |].
  exact (proj1 (H 1 20240101 20240110)).
Defined.

Lemma pages_succ {A : Type} (page : Z -> list A) (n : nat) :
  pages page (S n) = (pages page n ++ page (Z.of_nat (S n)))%list.
Proof.
  unfold pages. rewrite seq_S, map_app, concat_app. simpl.
  now rewrite app_nil_r.
Qed.

(** X9: for a limit that is not negative, pages 1 to [n] of
    [get_trading_tips], read one after the other, are the first
    [n * limit] tips of the ordered result, that is the single page of
    that size; a page that starts at or past the end is empty. *)
Theorem trading_tips_pages (db : Session) (stock_symbol : option string) (lim : Z)
    (n : nat) :
  0 <= lim ->
  pages (get_trading_tips db stock_symbol lim) n
  = firstn (n * Z.to_nat lim) (trading_tips_ordered db stock_symbol) /\
  pages (get_trading_tips db stock_symbol lim) n
  = get_trading_tips db stock_symbol (Z.of_nat n * lim) 1 /\
  (forall page, 1 <= page ->
     Z.of_nat (List.length (trading_tips_ordered db stock_symbol)) <= (page - 1) * lim ->
     get_trading_tips db stock_symbol lim page = []).
Proof.
  intros Hl.
  assert (Hpages : pages (get_trading_tips db stock_symbol lim) n
                   = firstn (n * Z.to_nat lim) (trading_tips_ordered db stock_symbol)).
  { induction n as [|n IH]; [reflexivity|].
    rewrite pages_succ, IH, get_trading_tips_eq, limit_nonneg by assumption.
    unfold offset.
    replace (Z.to_nat ((Z.of_nat (S n) - 1) * lim)) with (n * Z.to_nat lim)%nat by nia.
    rewrite firstn_then. f_equal. simpl. lia. }
  split; [exact Hpages|]. split.
  - rewrite Hpages, get_trading_tips_eq, limit_nonneg by nia.
    unfold offset. simpl. f_equal. nia.
  - intros page Hp Hend. rewrite get_trading_tips_eq, offset_past_end by assumption.
    apply limit_nil.
Qed.

Lemma trading_tips_pages_witness :
  map TradingTip.timestamp (pages (get_trading_tips fifty_tips None 20) 3)
  = map (fun t => Some (Z.of_nat t)) (rev (seq 1 50)).
Proof.
  destruct (trading_tips_pages fifty_tips None 20 3) as (-> & _ & _); [lia|].
  vm_compute. reflexivity.
Defined.

(** ** Filters *)

Lemma filter_none {A : Type} (p : A -> bool) (l : list A) :
  (forall r, p r = false) -> filter p l = [].
Proof.
  intros Hp. induction l as [|x l IH]; simpl; [reflexivity|]. now rewrite Hp.
Qed.

Lemma col_range_empty (c : option datetime) (a b : datetime) :
  b < a -> col_ge c a && col_le c b = false.
Proof.
  intros Hab. destruct c as [t|]; simpl; [|reflexivity].
  destruct (a <=? t) eqn:E1; simpl; [|reflexivity].
  apply Z.leb_le in E1. apply Z.leb_gt. lia.
Qed.

(** X10: a date range whose end lies before its start selects nothing:
    [get_historical_prices], and [get_sentiment_data] given both dates,
    return the empty list, whatever the store, offset and limit. *)
Theorem empty_date_range (db : Session) (a b : datetime) :
  b < a ->
  (forall stock_id skip lim, get_historical_prices db stock_id a b skip lim = []) /\
  (forall stock_symbol lim, get_sentiment_data db stock_symbol (Some a) (Some b) lim = []).
Proof.
  intros Hab. split.
  - intros stock_id skip lim. rewrite get_historical_prices_eq.
    unfold historical_prices_ordered. rewrite filter_none.
    + unfold offset. simpl. rewrite skipn_nil. apply limit_nil.
    + intros r. unfold in_date_range. rewrite <- andb_assoc.
      rewrite col_range_empty by assumption. apply andb_false_r.
  - intros stock_symbol lim. rewrite get_sentiment_data_eq.
    unfold sentiment_ordered. rewrite filter_none.
    + apply limit_nil.
    + intros r. unfold sentiment_selected, since, until. rewrite <- andb_assoc.
      rewrite col_range_empty by assumption. apply andb_false_r.
Qed.

Lemma empty_date_range_witness :
  get_historical_prices january 1 20240105 20240103 default_skip
    get_historical_prices_default_limit = [].
Proof.
  apply (empty_date_range january 20240105 20240103). lia.
Defined.

Lemma symbol_selected_iff (stock_symbol c : option string) :
  symbol_selected stock_symbol c = true <-> has_symbol stock_symbol c.
Proof.
  unfold symbol_selected, has_symbol. destruct stock_symbol as [s|]; [|tauto].
  now rewrite orb_true_iff, String.eqb_eq, col_eq_string.
Qed.

Lemma since_iff (start_date c : option datetime) :
  since start_date c = true <-> not_before start_date c.
Proof.
  unfold since, not_before, col_ge. destruct start_date as [a|]; [|tauto].
  destruct c as [t|].
  - rewrite Z.leb_le. split; [eauto | intros (t' & [= <-] & Ht); exact Ht].
  - split; [discriminate | intros (t & F & _); discriminate].
Qed.

Lemma until_iff (end_date c : option datetime) :
  until end_date c = true <-> not_after end_date c.
Proof.
  unfold until, not_after, col_le. destruct end_date as [b|]; [|tauto].
  destruct c as [t|].
  - rewrite Z.leb_le. split; [eauto | intros (t' & [= <-] & Ht); exact Ht].
  - split; [discriminate | intros (t & F & _); discriminate].
Qed.

Lemma sentiment_selected_iff (stock_symbol : option string)
    (start_date end_date : option datetime) (r : SentimentData.t) :
  sentiment_selected stock_symbol start_date end_date r = true <->
  has_symbol stock_symbol (SentimentData.stock_symbol r) /\
  not_before start_date (SentimentData.timestamp r) /\
  not_after end_date (SentimentData.timestamp r).
Proof.
  unfold sentiment_selected.
  rewrite !andb_true_iff, symbol_selected_iff, since_iff, until_iff. tauto.
Qed.


Lemma StronglySorted_skipn {A : Type} (R : A -> A -> Prop) (n : nat) (l : list A) :
  StronglySorted R l -> StronglySorted R (skipn n l).
Proof.
  intros Hl. revert n. induction Hl as [|x l Hl IH Hx]; intros [|n]; simpl;
    try constructor; auto.
Qed.



Lemma casing_of_empty (s s' : string) :
  casing_of s s' = true -> String.eqb s' "" = String.eqb s "".
Proof. destruct s, s'; simpl; auto; discriminate. Qed.




(** X13: an empty-string symbol is no filter at all: [get_sentiment_data]
    and [get_trading_tips] given [""] return what they return without a
    symbol, records of every symbol and records without one included. *)
Theorem empty_symbol_is_no_filter (db : Session) :
  (forall start_date end_date lim,
     get_sentiment_data db (Some "") start_date end_date lim
     = get_sentiment_data db None start_date end_date lim) /\
  (forall lim page,
     get_trading_tips db (Some "") lim page = get_trading_tips db None lim page) /\
  (forall r lim,
     In r (sentiment_data (store db)) ->
     Z.of_nat (List.length (sentiment_data (store db))) <= lim ->
     In r (get_sentiment_data db (Some "") None None lim)).
Proof.
  split; [|split]; try reflexivity.
  intros r lim Hin Hlen.
  rewrite get_sentiment_data_eq.
  pose proof (order_by_desc_perm SentimentData.timestamp
                (filter (sentiment_selected (Some "") None None)
                   (sentiment_data (store db)))) as HP.
  fold (sentiment_ordered db (Some "") None None) in HP.
  assert (Hall : filter (sentiment_selected (Some "") None None)
                   (sentiment_data (store db)) = sentiment_data (store db))
    by (apply forallb_filter_id, forallb_forall; reflexivity).
  rewrite Hall in HP.
  rewrite limit_all by (rewrite (Permutation_length HP); exact Hlen).
  apply (Permutation_in _ (Permutation_sym HP)). exact Hin.
Qed.

(** ** Staging, then committing *)

(** A commit that returns has flushed every staged object into the store,
    kept every row, and left nothing staged. *)
Lemma commit_returned (now : datetime) (db db' : Session) (flushed : list entity) :
  commit now db = Returned flushed db' ->
  pending db' = [] /\
  (forall e, In e (pending db) ->
     exists e', entity_flushed_as now e e' /\ stored (store db') e') /\
  (forall e, stored (store db) e -> stored (store db') e).
Proof.
  unfold commit.
  destruct (flush now (store db) (pending db)) as [[fl d]|err] eqn:E; [|discriminate].
  intros [= <- <-]. simpl.
  apply flush_spec in E as (H2 & Hst & Hmono).
  repeat split; auto.
  intros e He. destruct (Forall2_in_l _ _ _ e H2 He) as (e' & Hin & Hfl).
  exists e'. split; [exact Hfl|]. rewrite Forall_forall in Hst. auto.
Qed.

Lemma in_limit_all {A : Type} (lim : Z) (l : list A) (r : A) :
  Z.of_nat (List.length l) <= lim -> In r l -> In r (limit lim l).
Proof. intros Hl Hr. now rewrite limit_all. Qed.

(** X14: a tip built by [create_trading_tip] and then committed is stored
    as built (its float as the engine stores it; the symbol of an ASCII
    symbol in upper case), and the listing for any casing of its symbol
    in the case of ASCII letters selects it: it is in the ordered result, hence on page 1 of
    [get_trading_tips] whenever the limit covers that result. *)
Theorem created_tip_found (now now' : datetime) (db db' : Session) (symbol : string)
    (tip_type : TipType) (action : ActionType) (reason : string)
    (confidence : option float) (timestamp : option datetime) (flushed : list entity) :
  let staged :=
    create_trading_tip now db symbol tip_type action reason confidence timestamp in
  commit now' (snd staged) = Returned flushed db' ->
  exists x',
    In x' (trading_tips (store db')) /\ tip_as_given (fst staged) x' /\
    (is_ascii symbol = true -> TradingTip.stock_symbol x' = Some (upper symbol)) /\
    forall symbol', casing_of symbol symbol' = true ->
      In x' (trading_tips_ordered db' (Some symbol')) /\
      forall lim,
        Z.of_nat (List.length (trading_tips_ordered db' (Some symbol'))) <= lim ->
        In x' (get_trading_tips db' (Some symbol') lim 1).
Proof.
  intros staged Hc.
  destruct (commit_returned _ _ _ _ Hc) as (_ & Hall & _).
  destruct (Hall (ETradingTip (fst staged))) as ([| | | |x'] & Hf & Hs);
    try contradiction.
  { unfold staged. simpl. apply in_or_app. right. now left. }
  pose proof (flushed_tip now' (fst staged) x' Hf) as Hg.
  assert (Hin : In x' (trading_tips (store db'))) by exact Hs.
  assert (Hsym : TradingTip.stock_symbol x' = Some (upper symbol)).
  { destruct Hg as (_ & _ & E & _). rewrite E. reflexivity. }
  assert (Hord : forall symbol', casing_of symbol symbol' = true ->
                   In x' (trading_tips_ordered db' (Some symbol'))).
  { intros symbol' Hcase. unfold trading_tips_ordered.
    apply (Permutation_in _ (Permutation_sym (order_by_desc_perm _ _))).
    apply filter_In. split; [exact Hin|].
    unfold tip_selected. apply symbol_selected_iff. right.
    now rewrite Hsym, (casing_of_upper _ _ Hcase). }
  exists x'. split; [exact Hin|]. split; [exact Hg|]. split; [intros _; exact Hsym|].
  intros symbol' Hcase. split; [auto|].
  intros lim Hl. rewrite get_trading_tips_eq. unfold offset. simpl.
  apply in_limit_all; auto.
Qed.

Lemma created_tip_found_witness :
  exists x',
    In x' (trading_tips
             (store (session_after
                (commit 9 (snd (create_trading_tip 8 three_tips "wipro" INTRADAY SELL
                                  "Profit booking" None None)))))) /\
    TradingTip.stock_symbol x' = Some "WIPRO".
Proof.
  destruct (commit 9 (snd (create_trading_tip 8 three_tips "wipro" INTRADAY SELL
                             "Profit booking" None None))) as [fl db'|e d] eqn:E.
  - destruct (created_tip_found _ _ _ _ _ _ _ _ _ _ _ E) as (x' & Hin & _ & Hsym & _).
    exists x'. split; [exact Hin | exact (Hsym eq_refl)].
  - vm_compute in E. discriminate.
Defined.

(** X15: a sentiment record built by [create_sentiment_data] and then
    committed is stored as built, its score as the engine stores it, and
    [get_sentiment_data] selects it for
    any casing of its symbol and any date range that contains its
    timestamp (the one given, or the time of the call): it is in the
    ordered result, hence returned whenever the limit covers that result. *)
Theorem created_sentiment_found (now now' : datetime) (db db' : Session)
    (source : string) (text : option string) (score : float) (symbol : string)
    (timestamp : option datetime) (flushed : list entity) :
  let staged :=
    create_sentiment_data now db source text score (Some symbol) timestamp in
  commit now' (snd staged) = Returned flushed db' ->
  exists x',
    In x' (sentiment_data (store db')) /\ sentiment_as_given (fst staged) x' /\
    SentimentData.timestamp x' = Some (or_else timestamp now) /\
    forall symbol' start_date end_date,
      casing_of symbol symbol' = true ->
      not_before start_date (Some (or_else timestamp now)) ->
      not_after end_date (Some (or_else timestamp now)) ->
      In x' (sentiment_ordered db' (Some symbol') start_date end_date) /\
      forall lim,
        Z.of_nat (List.length (sentiment_ordered db' (Some symbol') start_date end_date))
        <= lim ->
        In x' (get_sentiment_data db' (Some symbol') start_date end_date lim).
Proof.
  intros staged Hc.
  destruct (commit_returned _ _ _ _ Hc) as (_ & Hall & _).
  destruct (Hall (ESentimentData (fst staged))) as ([| | |x'|] & Hf & Hs);
    try contradiction.
  { unfold staged. simpl. apply in_or_app. right. now left. }
  pose proof (flushed_sentiment now' (fst staged) x' Hf) as Hg.
  assert (Hin : In x' (sentiment_data (store db'))) by exact Hs.
  assert (Hts : SentimentData.timestamp x' = Some (or_else timestamp now)).
  { destruct Hg as (_ & K & _). apply K. reflexivity. }
  assert (Hsym : forall symbol', casing_of symbol symbol' = true ->
                   has_symbol (Some symbol') (SentimentData.stock_symbol x')).
  { intros symbol' Hcase. destruct Hg as (_ & _ & _ & _ & _ & E). rewrite E.
    unfold staged. simpl.
    destruct (String.eqb symbol "") eqn:Hempty; simpl.
    - left. apply String.eqb_eq.
      now rewrite (casing_of_empty _ _ Hcase).
    - right. now rewrite (casing_of_upper _ _ Hcase). }
  assert (Hord : forall symbol' start_date end_date,
            casing_of symbol symbol' = true ->
            not_before start_date (Some (or_else timestamp now)) ->
            not_after end_date (Some (or_else timestamp now)) ->
            In x' (sentiment_ordered db' (Some symbol') start_date end_date)).
  { intros symbol' a b Hcase Ha Hb. unfold sentiment_ordered.
    apply (Permutation_in _ (Permutation_sym (order_by_desc_perm _ _))).
    apply filter_In. split; [exact Hin|].
    apply sentiment_selected_iff. rewrite Hts. auto. }
  exists x'. split; [exact Hin|]. split; [exact Hg|]. split; [exact Hts|].
  intros symbol' a b Hcase Ha Hb. split; [auto|].
  intros lim Hl. rewrite get_sentiment_data_eq. apply in_limit_all; auto.
Qed.

Lemma created_sentiment_found_witness :
  exists x',
    In x' (sentiment_data
             (store (session_after
                (commit 9 (snd (create_sentiment_data 8 two_opinions "Twitter" None
                                  0.25%float (Some "tcs") None)))))) /\
    SentimentData.timestamp x' = Some 8.
Proof.
  destruct (commit 9 (snd (create_sentiment_data 8 two_opinions "Twitter" None
                             0.25%float (Some "tcs") None))) as [fl db'|e d] eqn:E.
  - destruct (created_sentiment_found _ _ _ _ _ _ _ _ _ _ E) as (x' & Hin & _ & Hts & _).
    exists x'. split; [exact Hin | exact Hts].
  - vm_compute in E. discriminate.
Defined.

(** ** The latest tick *)

Lemma first_order_by_desc_spec {A : Type} (key : A -> option datetime) (rows : list A) :
  match first (order_by_desc key rows) with
  | Some r => In r rows /\ forall r', In r' rows -> key_le (key r') (key r) = true
  | None => rows = []
  end.
Proof.
  pose proof (order_by_desc_perm key rows) as HP.
  pose proof (order_by_desc_descending key rows) as HS.
  destruct (order_by_desc key rows) as [|r l]; simpl.
  - now apply Permutation_nil in HP.
  - split; [eapply Permutation_in; [exact HP | now left]|].
    intros r' Hr'.
    apply (Permutation_in _ (Permutation_sym HP)) in Hr' as [<-|Hl].
    + destruct (key_le_total (key r) (key r)); auto.
    + apply StronglySorted_inv in HS as [_ HF]. rewrite Forall_forall in HF. auto.
Qed.

Lemma store_float_set (f : float) : is_nan f = false -> is_set (store_float (Some f)) = true.
Proof.
  intros Hf. unfold store_float. rewrite Hf. now destruct (PrimFloat.eqb f 0).
Qed.

(** X16: on a session with nothing staged, a tick built by
    [create_live_price] with integers within 64 bits, a price that is not
    NaN and a timestamp later than every stored tick of the stock can
    always be committed, and [get_latest_live_price] then returns that
    tick. *)
Theorem latest_after_new_tick (now now' : datetime) (db : Session) (stock_id : Z)
    (price : float) (volume : Z) (timestamp : option datetime) :
  pending db = [] ->
  fits_int64 (Some stock_id) = true -> fits_int64 (Some volume) = true ->
  is_nan price = false ->
  (forall r, In r (live_prices (store db)) -> LivePrice.stock_id r = Some stock_id ->
     key_lt (LivePrice.timestamp r) (Some (or_else timestamp now)) = true) ->
  let staged := create_live_price now db stock_id price volume timestamp in
  exists flushed db' x',
    commit now' (snd staged) = Returned flushed db' /\
    get_latest_live_price db' stock_id = Some x' /\
    live_price_as_given (fst staged) x' /\
    LivePrice.timestamp x' = Some (or_else timestamp now).
Proof.
  intros Hp Hsid Hvol Hprice Hlater staged.
  set (i := next_pk (live_prices (store db))).
  set (x' := LivePrice.mk (Some i) (Some stock_id) (Some (or_else timestamp now))
               (store_float (Some price)) (Some volume)).
  set (d' := mk_database (stocks (store db)) (historical_prices (store db))
               (place i x' (live_prices (store db))) (sentiment_data (store db))
               (trading_tips (store db))).
  assert (Hc : commit now' (snd staged) = Returned [ELivePrice x'] (mk_session d' [])).
  { unfold staged, commit, create_live_price, add. cbn [snd store pending].
    rewrite Hp. cbn [app flush flush_one bind]. unfold insert_row.
    cbn [column_defaults bindable as_stored not_null_ok unique_ok pk set_pk
         LivePrice_Model LivePrice.id LivePrice.stock_id LivePrice.timestamp
         LivePrice.price LivePrice.volume or_else].
    rewrite Hsid, Hvol, (store_float_set _ Hprice). reflexivity. }
  exists [ELivePrice x'], (mk_session d' []), x'.
  split; [exact Hc|]. split.
  - unfold get_latest_live_price. simpl.
    set (p := fun r => col_eq Z.eqb (LivePrice.stock_id r) stock_id).
    pose proof (first_order_by_desc_spec LivePrice.timestamp
                  (filter p (place i x' (live_prices (store db))))) as S.
    assert (Hx : In x' (filter p (place i x' (live_prices (store db))))).
    { apply filter_In. split; [apply in_place; now left|].
      unfold p. simpl. apply Z.eqb_refl. }
    destruct (first _) as [r|].
    + destruct S as [Hr Hmax]. f_equal.
      apply filter_In in Hr as [Hr Hpr]. apply in_place in Hr as [->|Hold]; [reflexivity|].
      exfalso. specialize (Hmax x' Hx).
      change (LivePrice.timestamp x') with (Some (or_else timestamp now)) in Hmax.
      unfold p in Hpr. apply col_eq_Z in Hpr.
      specialize (Hlater r Hold Hpr). unfold key_lt in Hlater.
      rewrite Hmax in Hlater. discriminate.
    + rewrite S in Hx. contradiction.
  - split; [|reflexivity].
    unfold live_price_as_given, kept. cbn. repeat split; auto; discriminate.
Qed.

Lemma latest_after_new_tick_witness :
  exists flushed db' x',
    commit 500 (snd (create_live_price 450 three_ticks 1 9%float 10 None))
    = Returned flushed db' /\
    get_latest_live_price db' 1 = Some x' /\
    LivePrice.timestamp x' = Some 450.
Proof.
  destruct (latest_after_new_tick 450 500 three_ticks 1 9%float 10 None
              eq_refl eq_refl eq_refl eq_refl)
    as (fl & db' & x' & Hc & Hlatest & _ & Hts).
  - vm_compute. intros r [<-|[<-|[<-|[<-|[]]]]]; intros E; try reflexivity; discriminate.
  - exists fl, db', x'. auto.
Defined.

(** ** create_entity *)

Section Reload.
Context {A : Type} `{ModelLaws A}.

(** The object an insert has flushed is reloaded by its key. *)
Lemma insert_row_reload (now : datetime) (tbl tbl' : list A) (x x' : A) :
  insert_row now tbl x = inl (x', tbl') -> reload tbl' x' = inl x'.
Proof.
  unfold insert_row.
  destruct (bindable _); simpl; [|discriminate].
  destruct (not_null_ok _); simpl; [|discriminate].
  destruct (unique_ok _ _); simpl; [|discriminate].
  destruct (pk (as_stored (column_defaults now x))) as [i|] eqn:Hpk.
  - destruct (existsb (has_pk i) tbl) eqn:Hk; [discriminate|].
    intros [= <- <-]. unfold reload, select_by_pk. rewrite Hpk.
    rewrite filter_place_only; auto.
    unfold has_pk. rewrite Hpk. simpl. apply Z.eqb_refl.
  - intros [= <- <-]. unfold reload, select_by_pk. rewrite pk_set_pk.
    rewrite filter_place_only; auto using next_pk_fresh.
    unfold has_pk. rewrite pk_set_pk. simpl. apply Z.eqb_refl.
Qed.
End Reload.

Lemma flush_one_refresh (now : datetime) (d d' : database) (e e' : entity)
    (staged : list entity) :
  flush_one now d e = inl (e', d') -> refresh (mk_session d' staged) e' = inl e'.
Proof.
  destruct e as [x|x|x|x|x]; simpl;
    destruct (insert_row now _ x) as [[x' t]|err] eqn:E; simpl; try discriminate;
    intros [= <- <-]; simpl; now rewrite (insert_row_reload _ _ _ _ _ E).
Qed.

(** What [create_entity] does: it commits what was staged and the object,
    and hands back the object as flushed; it raises only what the commit
    raises, with the store unchanged. *)
Lemma create_entity_outcome (now : datetime) (db : Session) (obj : entity) :
  match create_entity now db obj with
  | Returned obj' db' =>
      exists flushed d,
        flush now (store db) (pending db) = inl (flushed, d) /\
        flush_one now d obj = inl (obj', store db') /\ pending db' = []
  | Raised err d => d = store db /\ err <> InvalidRequestError
  end.
Proof.
  unfold create_entity, commit, add. simpl. rewrite flush_app.
  destruct (flush now (store db) (pending db)) as [[fl d]|err] eqn:Hf; simpl.
  - destruct (flush_one now d obj) as [[obj' d']|err] eqn:H1; simpl.
    + rewrite last_last, (flush_one_refresh _ _ _ _ _ _ H1). eauto.
    + split; [reflexivity | exact (flush_one_error _ _ _ _ H1)].
  - split; [reflexivity | exact (flush_error _ _ _ _ Hf)].
Qed.

(** X19: [create_entity] commits the object together with everything
    staged before, and returns it as flushed: the returned object is
    stored and reloads to itself, nothing is left staged and no stored row
    is lost. When it raises, the store is unchanged and the exception is
    one the commit raised, never the [InvalidRequestError] of a failed
    refresh. *)
Theorem create_entity_commits (now : datetime) (db : Session) (obj : entity) :
  match create_entity now db obj with
  | Returned obj' db' =>
      entity_flushed_as now obj obj' /\ stored (store db') obj' /\
      refresh db' obj' = inl obj' /\ pending db' = [] /\
      (forall e, In e (pending db) ->
         exists e', entity_flushed_as now e e' /\ stored (store db') e') /\
      (forall e, stored (store db) e -> stored (store db') e)
  | Raised err d => d = store db /\ err <> InvalidRequestError
  end.
Proof.
  pose proof (create_entity_outcome now db obj) as Ho.
  destruct (create_entity now db obj) as [obj' db'|err d]; [|exact Ho].
  destruct Ho as (fl & d & Hf & H1 & Hp).
  pose proof (flush_one_refresh _ _ _ _ _ [] H1) as Hr.
  apply flush_spec in Hf as (H2 & Hst & Hmono).
  apply flush_one_spec in H1 as (Hfl & Hs & Hmono').
  split; [exact Hfl|]. split; [exact Hs|]. split.
  { destruct db' as [d' p]. simpl in *. now subst p. }
  split; [exact Hp|]. split.
  - intros e He. destruct (Forall2_in_l _ _ _ e H2 He) as (e' & Hin & He').
    exists e'. split; [exact He'|]. rewrite Forall_forall in Hst. auto.
  - auto.
Qed.

Lemma create_entity_commits_witness :
  exists obj' db',
    create_entity 3 january (ELivePrice (tick 1 100 1%float)) = Returned obj' db' /\
    stored (store db') obj' /\ pending db' = [].
Proof.
  pose proof (create_entity_commits 3 january (ELivePrice (tick 1 100 1%float))) as H.
  destruct (create_entity 3 january (ELivePrice (tick 1 100 1%float)))
    as [obj' db'|err d] eqn:E.
  - exists obj', db'. destruct H as (_ & Hs & _ & Hp & _). auto.
  - vm_compute in E. discriminate.
Defined.

(** X20: [create_entity] stores a stock's symbol as given, without
    turning it to upper case: a stock created through it with a symbol
    that is not in upper case is stored under that symbol, and
    [get_stock_by_symbol] returns it for no argument at all. *)
Theorem create_entity_keeps_symbol (now : datetime) (db db' : Session)
    (symbol name : string) (exchange : Exchange) (obj' : entity) :
  create_entity now db (EStock (raw_stock symbol name exchange)) = Returned obj' db' ->
  upper symbol <> symbol ->
  exists st,
    obj' = EStock st /\ Stock.symbol st = Some symbol /\
    In st (stocks (store db')) /\
    forall q, get_stock_by_symbol db' q <> Some st.
Proof.
  intros Hc Hlow.
  pose proof (create_entity_outcome now db (EStock (raw_stock symbol name exchange))) as Ho.
  rewrite Hc in Ho. destruct Ho as (fl & d & _ & H1 & _).
  apply flush_one_spec in H1 as (Hfl & Hs & _).
  destruct obj' as [st| | | |]; try contradiction.
  exists st.
  assert (Hsym : Stock.symbol st = Some symbol).
  { unfold entity_flushed_as, flushed_as in Hfl. simpl in Hfl.
    destruct Hfl as [i ->]. reflexivity. }
  repeat split; auto.
  intros q Hq. unfold get_stock_by_symbol in Hq.
  pose proof (first_filter_spec
                (fun r => col_eq String.eqb (Stock.symbol r) (upper q))
                (stocks (store db'))) as S.
  rewrite Hq in S. destruct S as [_ Hp].
  apply col_eq_string in Hp. rewrite Hsym in Hp. injection Hp as Hp.
  exact (not_upper_of symbol q Hlow Hp).
Qed.

Lemma create_entity_keeps_symbol_witness :
  exists st db',
    create_entity 0 fresh_session (EStock (raw_stock "infy" "Infosys" NSE))
    = Returned (EStock st) db' /\
    Stock.symbol st = Some "infy" /\
    get_stock_by_symbol db' "infy" <> Some st /\
    get_stock_by_symbol db' "INFY" <> Some st.
Proof.
  destruct (create_entity 0 fresh_session (EStock (raw_stock "infy" "Infosys" NSE)))
    as [obj' db'|err d] eqn:E.
  - destruct (create_entity_keeps_symbol _ _ _ _ _ _ _ E) as (st & -> & Hsym & _ & Hnot).
    + discriminate.
    + exists st, db'. auto.
  - vm_compute in E. discriminate.
Defined.

(** ** core/enums.py *)

(** X21: within each enumeration the members have pairwise distinct
    values, so none is an alias of another and a value names one member. *)
Theorem enum_values_distinct :
  (forall a b, Exchange_value a = Exchange_value b -> a = b) /\
  (forall a b, TipType_value a = TipType_value b -> a = b) /\
  (forall a b, ActionType_value a = ActionType_value b -> a = b).
Proof.
  repeat split; intros [] []; simpl; intros E; try reflexivity; discriminate.
Qed.
